(** * Sites-only VCF export (scripts/mt_to_vcf.py)

    A shallow embedding of the matrix-table to sites-only-VCF script.  The
    script is a linear pipeline over Hail values: densify, filter rows,
    annotate two row aggregates, hand the result to an external info
    aggregator, overwrite [info.DP] by a keyed join, adjust the types and
    export.  Hail's expression primitives that decide the behaviour of the
    script (missingness, row aggregators, row filters, annotation, keyed
    lookup) are written out; the routines the script only calls
    ([densify], [default_compute_info], [adjust_vcf_incompatible_types],
    the VCF writer and reader) are section variables. *)

From Stdlib Require Import ZArith String Ascii List Lia.
From stdpp Require Import base option list gmap strings.

Local Open Scope Z_scope.

(** ** Hail values *)

(** Scalars that can sit in a row field or in the [info] struct. *)
Inductive Value :=
| VNA
| VBool (b : bool)
| VInt32 (z : Z)
| VInt64 (z : Z)
| VStr (s : string).

#[global] Instance Value_eq_dec : EqDecision Value.
Proof. solve_decision. Defined.

Definition int32_min : Z := - 2 ^ 31.
Definition int32_max : Z := 2 ^ 31 - 1.

(** Signed 64-bit wrap-around of the JVM [long] arithmetic behind int64. *)
Definition wrap64 (z : Z) : Z := (z + 2 ^ 63) mod 2 ^ 64 - 2 ^ 63.

(** Signed 32-bit wrap-around, as when an int64 is narrowed to an int32. *)
Definition wrap32 (z : Z) : Z := (z + 2 ^ 31) mod 2 ^ 32 - 2 ^ 31.

(** A genotype call: the allele indices it carries (0 is the reference). *)
Record Call := { call_alleles : list nat; phased : bool }.

(** [Call.is_non_ref]: the call includes a non-reference allele. *)
Definition is_non_ref (c : Call) : bool :=
  existsb (λ a, Nat.ltb 0 a) (call_alleles c).

(** One entry of the matrix; every field is nullable, and in a sparse table
    the entry struct itself can be missing. *)
Record Entry := { GT : option Call; DP : option Z; END : option Z }.

Record Locus := { contig : string; position : Z }.

#[global] Instance Locus_eq_dec : EqDecision Locus.
Proof. solve_decision. Defined.

#[global] Instance Locus_countable : Countable Locus.
Proof.
  apply (inj_countable' (λ l, (contig l, position l))
                        (λ p, {| contig := p.1; position := p.2 |})).
  by intros [].
Defined.

(** Rows are keyed by locus and allele list. *)
Definition RowKey : Type := Locus * option (list string).

Record MtRow := {
  locus : Locus;
  alleles : option (list string);
  row_fields : gmap string Value;
  entries : list (option Entry)
}.

Record MatrixTable := { col_keys : list string; mt_rows : list MtRow }.

Record HtRow := {
  ht_locus : Locus;
  ht_alleles : option (list string);
  info : gmap string Value;
  ht_fields : gmap string Value
}.

(** A table is its rows together with the number of partitions they are
    physically stored in. *)
Record Table := { ht_rows : list HtRow; ht_partitions : Z }.

Definition mt_key (r : MtRow) : RowKey := (locus r, alleles r).
Definition ht_key (h : HtRow) : RowKey := (ht_locus h, ht_alleles h).

(** Entry fields seen from a row aggregation: a missing entry has missing
    fields. *)
Definition entry_GT (e : option Entry) : option Call := e ≫= GT.
Definition entry_DP (e : option Entry) : option Z := e ≫= DP.

(** ** Hail expression primitives *)

Module hl.

Definition len {A} (a : option (list A)) : option Z :=
  (λ l, Z.of_nat (length l)) <$> a.

(** [x > y]; missing when either side is. *)
Definition gt (x y : option Z) : option bool :=
  x ← x; y ← y; Some (y <? x).

(** [a & b], three-valued: false wins over missing. *)
Definition and (a b : option bool) : option bool :=
  match a, b with
  | Some false, _ | _, Some false => Some false
  | Some true, Some true => Some true
  | _, _ => None
  end.

Definition is_defined {A} (x : option A) : bool :=
  match x with Some _ => true | None => false end.

Definition call_is_non_ref (c : option Call) : option bool :=
  is_non_ref <$> c.

(** Row aggregators.  Each takes the aggregated expression evaluated at
    every entry of the row. *)
Module agg.

(** Number of records where the condition is true; missing is not
    counted. *)
Fixpoint count_where (xs : list (option bool)) : Z :=
  match xs with
  | [] => 0
  | Some true :: xs => wrap64 (1 + count_where xs)
  | _ :: xs => count_where xs
  end.

(** True when the condition is true for some record; false when there
    is no record or every record is missing. *)
Definition any (xs : list (option bool)) : bool :=
  existsb (λ x, bool_decide (x = Some true)) xs.

(** int32 records are summed as int64; missing records are skipped. *)
Fixpoint sum (xs : list (option Z)) : Z :=
  match xs with
  | [] => 0
  | Some x :: xs => wrap64 (x + sum xs)
  | None :: xs => sum xs
  end.

End agg.

(** [mt.filter_rows(p)]: keep the rows where [p] is true; rows where it is
    false or missing are removed. *)
Definition filter_rows (p : MtRow → option bool) (mt : MatrixTable)
  : MatrixTable :=
  {| col_keys := col_keys mt;
     mt_rows := filter (λ r, p r = Some true) (mt_rows mt) |}.

(** [mt.annotate_rows(name=f)]: set one row field on every row. *)
Definition annotate_rows (name : string) (f : MtRow → Value)
    (mt : MatrixTable) : MatrixTable :=
  {| col_keys := col_keys mt;
     mt_rows :=
       (λ r, {| locus := locus r; alleles := alleles r;
                row_fields := <[name := f r]> (row_fields r);
                entries := entries r |}) <$> mt_rows mt |}.

(** [rows[k]]: the first row with key [k].  A key with a missing field
    joins with nothing. *)
Definition index (rows : list MtRow) (k : RowKey) : option MtRow :=
  if is_defined k.2
  then snd <$> list_find (λ r, mt_key r = k) rows
  else None.

(** [s.name] on a possibly missing row struct.  Which fields a row has is
    part of the type of its table; the script reads [site_dp] from the
    tagged table only, whose rows all carry it. *)
Definition get_field (name : string) (s : option MtRow) : Value :=
  default VNA (s ≫= λ r, row_fields r !! name).

(** [ht.annotate(info=f)]: recompute the [info] struct of every row. *)
Definition annotate_info (f : HtRow → gmap string Value) (ht : Table)
  : Table :=
  {| ht_rows :=
       (λ h, {| ht_locus := ht_locus h; ht_alleles := ht_alleles h;
                info := f h; ht_fields := ht_fields h |}) <$> ht_rows ht;
     ht_partitions := ht_partitions ht |}.

End hl.

(** ** The script *)

Section Pipeline.

(** [hl.experimental.densify] *)
Variable densify : MatrixTable → MatrixTable.

Definition _filter_rows_and_add_tags (mt : MatrixTable) : MatrixTable :=
  let mt := densify mt in
  let mt :=
    hl.filter_rows
      (λ r, hl.and
              (hl.gt (hl.len (alleles r)) (Some 1))
              (Some (hl.agg.any
                       ((λ e, hl.call_is_non_ref (entry_GT e))
                          <$> entries r))))
      mt in
  let mt :=
    hl.annotate_rows "site_dp"
      (λ r, VInt64 (hl.agg.sum (entry_DP <$> entries r))) mt in
  hl.annotate_rows "ANS"
    (λ r, VInt64
            (wrap64
               (hl.agg.count_where
                  ((λ e, Some (hl.is_defined (entry_GT e))) <$> entries r)
                * 2)))
    mt.

(** [gnomad.utils.sparse_mt.default_compute_info mt site_annotations
    n_partitions] *)
Variable default_compute_info : MatrixTable → bool → Z → Table.

Definition _create_info_ht (mt : MatrixTable) (n_partitions : Z) : Table :=
  let info_ht := default_compute_info mt true n_partitions in
  let info_ht :=
    hl.annotate_info
      (λ h, <["DP" := hl.get_field "site_dp"
                        (hl.index (mt_rows mt) (ht_key h))]> (info h))
      info_ht in
  info_ht.

(** [gnomad.utils.vcf.adjust_vcf_incompatible_types] *)
Variable adjust_vcf_incompatible_types : Table → Table.

Definition mt_to_sites_only_ht (mt : MatrixTable) (n_partitions : Z)
  : Table :=
  let mt := _filter_rows_and_add_tags mt in
  let ht := _create_info_ht mt n_partitions in
  let ht := adjust_vcf_incompatible_types ht in
  ht.

(** *** Effects

    The script touches the outside world in four ways: it starts a Hail
    session, logs, reads a persisted matrix table and writes a VCF.  The
    world holds the persisted tables and written files by path, and the
    sequence of these actions. *)

(** What [hl.export_vcf] writes for a table. *)
Variable VcfFile : Type.
Variable export_vcf : Table → VcfFile.

Inductive Event :=
| EvInitHail (name : string) (local_tmp_dir : option string)
| EvLog (msg : string)
| EvReadMatrixTable (path : string)
| EvExportVcf (path : string).

Record World := {
  w_tables : gmap string MatrixTable;
  w_vcfs : gmap string VcfFile;
  w_trace : list Event
}.

Inductive Exn :=
| BadParameter (msg : string)  (* click usage error *)
| HailError (msg : string).

Inductive Outcome (A : Type) :=
| Returned (a : A)
| Raised (e : Exn).
Arguments Returned {A} a.
Arguments Raised {A} e.

Definition IO (A : Type) : Type := World → Outcome A * World.

#[local] Instance IO_ret : MRet IO := λ A a w, (Returned a, w).
#[local] Instance IO_bind : MBind IO := λ A B k m w,
  match m w with
  | (Returned a, w') => k a w'
  | (Raised e, w') => (Raised e, w')
  end.

Definition raise {A} (e : Exn) : IO A := λ w, (Raised e, w).

Definition emit (ev : Event) : IO unit := λ w,
  (Returned (),
   {| w_tables := w_tables w; w_vcfs := w_vcfs w;
      w_trace := w_trace w ++ [ev] |}).

Definition logger_info (msg : string) : IO unit := emit (EvLog msg).

(** Modelled from the spec: [init_hail] is imported from
    [joint_calling.utils], which is not among the sources.  The spec has it
    initialise the Hail session and leaves the rest out of scope; the call
    is recorded with its arguments. *)
Definition init_hail (name : string) (local_tmp_dir : option string)
  : IO unit :=
  emit (EvInitHail name local_tmp_dir).

Definition read_matrix_table (path : string) : IO MatrixTable :=
  emit (EvReadMatrixTable path) ;;
  ((λ w, match w_tables w !! path with
         | Some mt => (Returned mt, w)
         | None => raise (HailError path) w
         end) : IO MatrixTable).

(** [hl.export_vcf]: the file at [path] becomes what the writer makes of
    the table.  Failures of the writer itself are not part of this model. *)
Definition hl_export_vcf (ht : Table) (path : string) : IO unit :=
  emit (EvExportVcf path) ;;
  ((λ w, (Returned (),
          {| w_tables := w_tables w;
             w_vcfs := <[path := export_vcf ht]> (w_vcfs w);
             w_trace := w_trace w |})) : IO unit).

Definition dquote : string := String (ascii_of_nat 34) EmptyString.
Definition squote : string := String (ascii_of_nat 39) EmptyString.

Definition export_sites_only_vcf (mt : MatrixTable) (output_path : string)
    (n_partitions : Z) : IO string :=
  logger_info "Converting matrix table to sites-only matrix table" ;;
  let ht := mt_to_sites_only_ht mt n_partitions in
  logger_info ("Exporting sites-only VCF to " +:+ squote +:+ output_path
               +:+ squote +:+ " to run in the VQSR pipeline") ;;
  hl_export_vcf ht output_path ;;
  logger_info "Successfully exported sites-only VCF" ;;
  mret output_path.

Definition main (mt_path output_path : string)
    (local_tmp_dir : option string) (overwrite : bool)
    (hail_billing : option string) (n_partitions : Z) : IO unit :=
  init_hail "variant_qc" local_tmp_dir ;;
  logger_info ("Loading matrix table from " +:+ dquote +:+ mt_path
               +:+ dquote) ;;
  mt ← read_matrix_table mt_path;
  export_sites_only_vcf mt output_path n_partitions ;;
  mret ().

(** *** Command line *)

Definition ends_with (suffix s : string) : bool :=
  let n := String.length s in
  let m := String.length suffix in
  (m <=? n)%nat && String.eqb (substring (n - m) m s) suffix.

Definition file_exists (w : World) (path : string) : bool :=
  bool_decide (is_Some (w_tables w !! path)).

(** Modelled from the spec: [get_validation_callback] is imported from
    [joint_calling.utils], which is not among the sources.  The spec has
    the input path checked for its extension and for existence, a failure
    being reported as a usage error. *)
Definition get_validation_callback (ext : string) (must_exist : bool)
    (value : string) : IO string := λ w,
  if negb (ends_with ("." +:+ ext) value) then
    raise (BadParameter (value +:+ " is expected to have an extension ."
                         +:+ ext)) w
  else if must_exist && negb (file_exists w value) then
    raise (BadParameter (value +:+ " doesn't exist")) w
  else (Returned value, w).

(** The parsed command line; [--mt] and [-o] are required. *)
Record Args := {
  arg_mt : string;
  arg_o : string;
  arg_local_tmp_dir : option string;
  arg_overwrite : bool;
  arg_hail_billing : option string;
  arg_n_partitions : Z
}.

(** The click command around [main]: option callbacks run while the
    parameters are processed, and the function body runs on the processed
    values. *)
Definition command (a : Args) : IO unit :=
  mt_path ← get_validation_callback "mt" true (arg_mt a);
  main mt_path (arg_o a) (arg_local_tmp_dir a) (arg_overwrite a)
       (arg_hail_billing a) (arg_n_partitions a).

End Pipeline.

Arguments Returned {A} a.
Arguments Raised {A} e.
Arguments w_tables {VcfFile} w.
Arguments w_vcfs {VcfFile} w.
Arguments w_trace {VcfFile} w.
Arguments file_exists {VcfFile} w path.

(** ** Reference instances of the external routines

    Small executable stand-ins with the shape of the library routines.  The
    properties below are stated for arbitrary routines; these instances show
    that the assumptions made about them can be met and let the script
    run on concrete tables. *)

Module Model.

(** Reference-block expansion: a missing entry takes the latest earlier
    entry of the same sample that carries [END], provided the block is on
    the same contig and reaches the row's position.  The library routine
    needs the [END] entry field and drops it from the result; here the
    dropped field shows as a missing [END] on every entry. *)
Definition covers (l : Locus) (prev : option (string * Entry)) : bool :=
  match prev with
  | Some (c, pe) =>
      bool_decide (c = contig l)
      && match END pe with Some e => position l <=? e | None => false end
  | None => false
  end.

Definition fill (l : Locus) (prev : option (string * Entry))
    (e : option Entry) : option Entry :=
  match e with
  | Some _ => e
  | None => if covers l prev then snd <$> prev else None
  end.

Definition remember (l : Locus) (prev : option (string * Entry))
    (e : option Entry) : option (string * Entry) :=
  match e with
  | Some e' => if hl.is_defined (END e') then Some (contig l, e') else prev
  | None => prev
  end.

Definition drop_END (e : Entry) : Entry :=
  {| GT := GT e; DP := DP e; END := None |}.

Fixpoint densify_rows (prev : list (option (string * Entry)))
    (rows : list MtRow) : list MtRow :=
  match rows with
  | [] => []
  | r :: rs =>
      let prev_at i := mjoin (prev !! i) in
      {| locus := locus r; alleles := alleles r;
         row_fields := row_fields r;
         entries :=
           imap (λ i e, drop_END <$> fill (locus r) (prev_at i) e)
                (entries r) |}
      :: densify_rows
           (imap (λ i e, remember (locus r) (prev_at i) e) (entries r)) rs
  end.

Definition densify (mt : MatrixTable) : MatrixTable :=
  {| col_keys := col_keys mt; mt_rows := densify_rows [] (mt_rows mt) |}.

(** A stand-in aggregator: one output row per input row under the same
    key, carrying the depth of the non-reference carriers both as [VarDP]
    and as its own [DP], and a [lowqual] row flag. *)
Definition var_dp (r : MtRow) : Z :=
  hl.agg.sum
    ((λ e, if default false (hl.call_is_non_ref (entry_GT e))
           then entry_DP e else None) <$> entries r).

Definition default_compute_info (mt : MatrixTable)
    (site_annotations : bool) (n_partitions : Z) : Table :=
  {| ht_rows :=
       (λ r, {| ht_locus := locus r; ht_alleles := alleles r;
                info :=
                  if site_annotations
                  then {[ "DP" := VInt64 (var_dp r);
                          "VarDP" := VInt64 (var_dp r) ]}
                  else {[ "DP" := VInt64 (var_dp r) ]};
                ht_fields := {[ "lowqual" := VBool false ]} |})
         <$> mt_rows mt;
     ht_partitions := n_partitions |}.

(** int64 info fields become int32, [hl.int32(hl.min(2**31 - 1, x))]:
    capped at the largest int32 and narrowed. *)
Definition to_vcf_type (v : Value) : Value :=
  match v with
  | VInt64 z => VInt32 (wrap32 (Z.min int32_max z))
  | _ => v
  end.

Definition adjust_vcf_incompatible_types (ht : Table) : Table :=
  hl.annotate_info (λ h, to_vcf_type <$> info h) ht.

(** A VCF as its records: the key columns and the INFO column. *)
Definition VcfFile : Type := list (RowKey * gmap string Value).

Definition export_vcf (ht : Table) : VcfFile :=
  (λ h, (ht_key h, info h)) <$> ht_rows ht.

Definition import_vcf (f : VcfFile) : Table :=
  {| ht_rows :=
       (λ rec, {| ht_locus := rec.1.1; ht_alleles := rec.1.2;
                  info := rec.2; ht_fields := ∅ |}) <$> f;
     ht_partitions := 1 |}.

(** A two-sample sparse table: a reference block of the first sample, a
    deletion, the site it spans with a missing call, and a SNP carried by
    both samples. *)
Definition het : Call := {| call_alleles := [0; 1]%nat; phased := false |}.
Definition hom_var : Call := {| call_alleles := [1; 1]%nat; phased := false |}.
Definition hom_ref : Call := {| call_alleles := [0; 0]%nat; phased := false |}.

Definition at_chr1 (p : Z) : Locus := {| contig := "chr1"; position := p |}.

Definition snp_row : MtRow :=
  {| locus := at_chr1 9; alleles := Some ["A"; "G"]; row_fields := ∅;
     entries := [Some {| GT := Some hom_var; DP := Some 10; END := None |};
                 Some {| GT := Some het; DP := Some 20; END := None |}] |}.

Definition cohort : MatrixTable :=
  {| col_keys := ["s1"; "s2"];
     mt_rows :=
       [ {| locus := at_chr1 1; alleles := Some ["G"]; row_fields := ∅;
            entries := [Some {| GT := Some hom_ref; DP := Some 7;
                                END := Some 4 |};
                        None] |};
         {| locus := at_chr1 2; alleles := Some ["GCT"; "G"];
            row_fields := ∅;
            entries := [None;
                        Some {| GT := Some het; DP := Some 10;
                                END := None |}] |};
         {| locus := at_chr1 3; alleles := Some ["T"; "*"];
            row_fields := ∅;
            entries := [None;
                        Some {| GT := None; DP := Some 5; END := None |}] |};
         snp_row ] |}.

Definition two_sample : MatrixTable :=
  {| col_keys := ["s1"; "s2"]; mt_rows := [snp_row] |}.

Definition cohort_path : string := "gs://bucket/cohort.mt".

Definition world0 : World VcfFile :=
  {| w_tables := {[ cohort_path := cohort ]}; w_vcfs := ∅; w_trace := [] |}.

Definition args0 : Args :=
  {| arg_mt := cohort_path; arg_o := "gs://bucket/sites.vcf.bgz";
     arg_local_tmp_dir := None; arg_overwrite := false;
     arg_hail_billing := None; arg_n_partitions := 5000 |}.

(** The deletion row once densified: the first sample is covered by its
    reference block. *)
Definition deletion_dense : MtRow :=
  {| locus := at_chr1 2; alleles := Some ["GCT"; "G"]; row_fields := ∅;
     entries := [Some {| GT := Some hom_ref; DP := Some 7; END := None |};
                 Some {| GT := Some het; DP := Some 10; END := None |}] |}.

Definition args_absent : Args :=
  {| arg_mt := "gs://bucket/absent.mt"; arg_o := "gs://bucket/sites.vcf.bgz";
     arg_local_tmp_dir := None; arg_overwrite := true;
     arg_hail_billing := Some "project"; arg_n_partitions := 1 |}.

Definition run (a : Args) : IO VcfFile unit :=
  command densify default_compute_info adjust_vcf_incompatible_types
          VcfFile export_vcf a.

End Model.

(** ** Vocabulary of the properties *)

(** The row has an allele list with more than one allele. *)
Definition multi_allelic (r : MtRow) : Prop :=
  ∃ al, alleles r = Some al ∧ (1 < length al)%nat.

(** Some sample has a defined call that is not the reference. *)
Definition has_non_ref_call (r : MtRow) : Prop :=
  ∃ e c, Some e ∈ entries r ∧ GT e = Some c ∧ is_non_ref c = true.

(** Row [r] of the densified input appears in the output table: some output
    row is at the same site and has the same entries. *)
Definition retained (out : MatrixTable) (r : MtRow) : Prop :=
  ∃ r', r' ∈ mt_rows out ∧ mt_key r' = mt_key r ∧ entries r' = entries r.

(** Number of samples whose call is defined. *)
Definition defined_calls (r : MtRow) : Z :=
  Z.of_nat (length (filter (λ e, is_Some (entry_GT e)) (entries r))).

(** Sum of the per-sample depths, a missing depth counting for zero. *)
Definition depth_total (r : MtRow) : Z :=
  foldr Z.add 0 ((λ e, default 0 (entry_DP e)) <$> entries r).

(** The row respects Hail's types: the samples are indexed by an int32 and
    every depth is an int32. *)
Definition row_typed (r : MtRow) : bool :=
  (Z.of_nat (length (entries r)) <=? int32_max)
  && forallb (λ e, match entry_DP e with
                   | Some d => (int32_min <=? d) && (d <=? int32_max)
                   | None => true
                   end) (entries r).

(** Two table rows agree on everything except the [DP] entry of [info]. *)
Definition same_except_DP (h h' : HtRow) : Prop :=
  ht_key h' = ht_key h
  ∧ ht_fields h' = ht_fields h
  ∧ ∀ f : string, f ≠ "DP" → info h' !! f = info h !! f.

Definition key_set (ht : Table) : gset RowKey :=
  list_to_set (ht_key <$> ht_rows ht).

(** The row of the two-sample scenario: alleles [A] and [G], depths 10 and
    20, and a call for each sample. *)
Definition scenario_row (l : Locus) (c1 c2 : Call) : MtRow :=
  {| locus := l; alleles := Some ["A"; "G"]; row_fields := ∅;
     entries := [Some {| GT := Some c1; DP := Some 10; END := None |};
                 Some {| GT := Some c2; DP := Some 20; END := None |}] |}.

(** The command line [a] with other values for [--overwrite/--reuse] and
    [--hail-billing]. *)
Definition with_options (a : Args) (overwrite : bool)
    (hail_billing : option string) : Args :=
  {| arg_mt := arg_mt a; arg_o := arg_o a;
     arg_local_tmp_dir := arg_local_tmp_dir a;
     arg_overwrite := overwrite; arg_hail_billing := hail_billing;
     arg_n_partitions := arg_n_partitions a |}.

(** The filter condition and the two annotations of
    [_filter_rows_and_add_tags], row by row. *)
Definition keep_row (r : MtRow) : option bool :=
  hl.and (hl.gt (hl.len (alleles r)) (Some 1))
         (Some (hl.agg.any
                  ((λ e, hl.call_is_non_ref (entry_GT e)) <$> entries r))).

Definition site_dp_of (r : MtRow) : Value :=
  VInt64 (hl.agg.sum (entry_DP <$> entries r)).

Definition ANS_of (r : MtRow) : Value :=
  VInt64 (wrap64
            (hl.agg.count_where
               ((λ e, Some (hl.is_defined (entry_GT e))) <$> entries r) * 2)).

Definition tagged (r : MtRow) : MtRow :=
  {| locus := locus r; alleles := alleles r;
     row_fields := <["ANS" := ANS_of r]>
                     (<["site_dp" := site_dp_of r]> (row_fields r));
     entries := entries r |}.

(** Number of samples of a row. *)
Definition n_samples (r : MtRow) : Z := Z.of_nat (length (entries r)).

(** What a completed run of the command adds to the trace. *)
Definition success_trace (a : Args) : list Event :=
  [EvInitHail "variant_qc" (arg_local_tmp_dir a);
   EvLog ("Loading matrix table from " +:+ dquote +:+ arg_mt a +:+ dquote);
   EvReadMatrixTable (arg_mt a);
   EvLog "Converting matrix table to sites-only matrix table";
   EvLog ("Exporting sites-only VCF to " +:+ squote +:+ arg_o a +:+ squote
          +:+ " to run in the VQSR pipeline");
   EvExportVcf (arg_o a);
   EvLog "Successfully exported sites-only VCF"].

(** Two rows at the same site with the same row fields whose entries are
    the same up to the order of the samples. *)
Definition same_up_to_sample_order (r1 r2 : MtRow) : Prop :=
  mt_key r1 = mt_key r2
  ∧ row_fields r1 = row_fields r2
  ∧ entries r1 ≡ₚ entries r2.

(** The number a Hail integer stands for, whatever its width. *)
Definition int_of (v : Value) : option Z :=
  match v with
  | VInt32 z | VInt64 z => Some z
  | _ => None
  end.

(** Further sample data: a table with a site and no sample, the SNP row
    with its two samples swapped, a deeply covered site, an aggregator that
    adds a row at a site the cohort does not have, and the stand-in
    aggregator with another [DP]. *)
Module Sample.

(** Two samples at the largest int32 depth. *)
Definition deep_row : MtRow :=
  {| locus := Model.at_chr1 9; alleles := Some ["A"; "G"]; row_fields := ∅;
     entries := [Some {| GT := Some Model.hom_var; DP := Some 2147483647;
                         END := None |};
                 Some {| GT := Some Model.het; DP := Some 2147483647;
                         END := None |}] |}.

Definition deep : MatrixTable :=
  {| col_keys := ["s1"; "s2"]; mt_rows := [deep_row] |}.

Definition no_samples : MatrixTable :=
  {| col_keys := [];
     mt_rows := [ {| locus := Model.at_chr1 5; alleles := Some ["A"; "T"];
                     row_fields := ∅; entries := [] |} ] |}.

Definition snp_row_swapped : MtRow :=
  {| locus := Model.at_chr1 9; alleles := Some ["A"; "G"]; row_fields := ∅;
     entries := [Some {| GT := Some Model.het; DP := Some 20; END := None |};
                 Some {| GT := Some Model.hom_var; DP := Some 10;
                         END := None |}] |}.

Definition two_sample_swapped : MatrixTable :=
  {| col_keys := ["s2"; "s1"]; mt_rows := [snp_row_swapped] |}.

Definition depthless_row : MtRow :=
  {| locus := Model.at_chr1 9; alleles := Some ["A"; "G"];
     row_fields := {[ "site_dp" := VStr "stale" ]};
     entries := [Some {| GT := Some Model.het; DP := None; END := None |};
                 None] |}.

Definition all_depths_missing : MatrixTable :=
  {| col_keys := ["s1"; "s2"]; mt_rows := [depthless_row] |}.

(** The stand-in aggregator with one more row, at a site its input does
    not have. *)
Definition stray_row : HtRow :=
  {| ht_locus := Model.at_chr1 77; ht_alleles := Some ["C"];
     info := {[ "DP" := VInt64 99 ]}; ht_fields := ∅ |}.

Definition stray_compute_info (mt : MatrixTable) (site_annotations : bool)
    (n_partitions : Z) : Table :=
  {| ht_rows :=
       ht_rows (Model.default_compute_info mt site_annotations n_partitions)
       ++ [stray_row];
     ht_partitions := n_partitions |}.

(** The stand-in aggregator with a constant [DP]. *)
Definition other_compute_info (mt : MatrixTable) (site_annotations : bool)
    (n_partitions : Z) : Table :=
  hl.annotate_info (λ h, <["DP" := VInt32 0]> (info h))
    (Model.default_compute_info mt site_annotations n_partitions).

Definition world_with_output : World Model.VcfFile :=
  {| w_tables := {[ Model.cohort_path := Model.cohort ]};
     w_vcfs := {[ "gs://bucket/sites.vcf.bgz" := [];
                  "gs://bucket/other.vcf.bgz" := [] ]};
     w_trace := [EvLog "earlier"] |}.

End Sample.

(** * Properties *)

(** ** The primitives on small inputs *)

Example and_false_missing : hl.and (Some false) None = Some false.
Proof. reflexivity. Qed.

Example and_true_missing : hl.and (Some true) None = None.
Proof. reflexivity. Qed.

Example len_gt_missing : hl.gt (hl.len (None : option (list string))) (Some 1) = None.
Proof. reflexivity. Qed.

Example any_all_missing : hl.agg.any [None; None] = false.
Proof. reflexivity. Qed.

Example sum_skips_missing : hl.agg.sum [Some 10; None; Some 20] = 30.
Proof. reflexivity. Qed.

Example sum_wraps : hl.agg.sum [Some (2 ^ 63 - 1); Some 1] = - 2 ^ 63.
Proof. reflexivity. Qed.

Example count_where_ignores_missing :
  hl.agg.count_where [Some true; None; Some false; Some true] = 2.
Proof. reflexivity. Qed.

Example ends_with_mt :
  ends_with ".mt" "gs://bucket/cohort.mt" = true
  ∧ ends_with ".mt" "cohort.vcf" = false
  ∧ ends_with ".mt" "mt" = false.
Proof. by repeat split. Qed.

(** The sample cohort: the single-allele reference row and the spanned site
    with a missing call are dropped, the deletion and the SNP are kept. *)
Example cohort_retained_keys :
  mt_key <$> mt_rows (_filter_rows_and_add_tags Model.densify Model.cohort)
  = [(Model.at_chr1 2, Some ["GCT"; "G"]); (Model.at_chr1 9, Some ["A"; "G"])].
Proof. reflexivity. Qed.

(** ** Arithmetic of the aggregators *)

Lemma wrap64_small z : - 2 ^ 63 <= z < 2 ^ 63 → wrap64 z = z.
Proof.
  intros Hz. unfold wrap64.
  rewrite Z.mod_small; lia.
Qed.

Lemma count_where_bounds (xs : list (option bool)) :
  Z.of_nat (length xs) < 2 ^ 63 →
  0 <= hl.agg.count_where xs <= Z.of_nat (length xs).
Proof.
  induction xs as [|x xs IH]; simpl; intros Hlen; [lia|].
  assert (Hxs : Z.of_nat (length xs) < 2 ^ 63) by lia.
  specialize (IH Hxs).
  destruct x as [[|]|]; try lia.
  rewrite wrap64_small; lia.
Qed.

Lemma count_where_defined (es : list (option Entry)) :
  Z.of_nat (length es) < 2 ^ 63 →
  hl.agg.count_where ((λ e, Some (hl.is_defined (entry_GT e))) <$> es)
  = Z.of_nat (length (filter (λ e, is_Some (entry_GT e)) es)).
Proof.
  induction es as [|e es IH]; intros Hlen; [done|].
  assert (Hes : Z.of_nat (length es) < 2 ^ 63) by (simpl in Hlen; lia).
  specialize (IH Hes).
  pose proof (length_filter (λ e, is_Some (entry_GT e)) es) as Hle.
  rewrite fmap_cons, filter_cons.
  destruct (decide (is_Some (entry_GT e))) as [[c Hc]|Hn].
  - rewrite Hc. cbn [hl.agg.count_where hl.is_defined].
    rewrite IH, wrap64_small; rewrite ?length_cons in *; lia.
  - destruct (entry_GT e); [by destruct Hn|].
    by cbn [hl.agg.count_where hl.is_defined].
Qed.

Lemma sum_depths_bounds (es : list (option Entry)) :
  Z.of_nat (length es) <= int32_max →
  forallb (λ e, match entry_DP e with
                | Some d => (int32_min <=? d) && (d <=? int32_max)
                | None => true
                end) es = true →
  hl.agg.sum (entry_DP <$> es)
  = foldr Z.add 0 ((λ e, default 0 (entry_DP e)) <$> es)
  ∧ Z.abs (hl.agg.sum (entry_DP <$> es)) <= Z.of_nat (length es) * 2 ^ 31.
Proof.
  unfold int32_max, int32_min.
  induction es as [|e es IH]; intros Hlen Hall; [by split|].
  rewrite length_cons, Nat2Z.inj_succ in *.
  cbn [forallb] in Hall. apply andb_prop in Hall as [He Hall].
  destruct IH as [IHeq IHabs]; [lia|done|].
  rewrite !fmap_cons. cbn [foldr].
  destruct (entry_DP e) as [d|]; cbn [hl.agg.sum default].
  - apply andb_prop in He as [?%Z.leb_le ?%Z.leb_le].
    unfold id. rewrite wrap64_small by lia. split; [by rewrite IHeq|lia].
  - split; [by rewrite IHeq|lia].
Qed.

(** ** The rows of the tagged table *)

Section Properties.

Variable densify : MatrixTable → MatrixTable.

Lemma filter_rows_and_add_tags_rows (mt : MatrixTable) :
  mt_rows (_filter_rows_and_add_tags densify mt)
  = tagged <$> filter (λ r, keep_row r = Some true) (mt_rows (densify mt)).
Proof.
  unfold _filter_rows_and_add_tags, hl.annotate_rows, hl.filter_rows; simpl.
  by rewrite <- list_fmap_compose.
Qed.

Lemma any_non_ref_true (r : MtRow) :
  hl.agg.any ((λ e, hl.call_is_non_ref (entry_GT e)) <$> entries r) = true
  ↔ has_non_ref_call r.
Proof.
  unfold hl.agg.any, has_non_ref_call. rewrite existsb_exists. split.
  - intros (x & Hin & Hx).
    apply list_elem_of_In, list_elem_of_fmap in Hin as (e & -> & He).
    apply bool_decide_eq_true in Hx.
    destruct e as [e|]; [|done].
    unfold entry_GT, hl.call_is_non_ref in Hx; simpl in Hx.
    destruct (GT e) as [c|] eqn:Hc; [|done].
    exists e, c. by simplify_eq/=.
  - intros (e & c & He & Hc & Hnr).
    exists (Some true). split; [|by apply bool_decide_eq_true].
    apply list_elem_of_In, list_elem_of_fmap. exists (Some e).
    split; [|done]. unfold entry_GT; simpl. by rewrite Hc; simpl; rewrite Hnr.
Qed.

Lemma keep_row_true (r : MtRow) :
  keep_row r = Some true ↔ multi_allelic r ∧ has_non_ref_call r.
Proof.
  rewrite <- any_non_ref_true. unfold keep_row, multi_allelic.
  destruct (hl.agg.any _); destruct (alleles r) as [al|]; simpl.
  - destruct (1 <? Z.of_nat (length al)) eqn:Hlen; simpl.
    + apply Z.ltb_lt in Hlen. split; [|done]. intros _. split; [|done].
      exists al. split; [done|lia].
    + apply Z.ltb_ge in Hlen. split; [done|].
      intros [(al' & [= <-] & ?) _]. lia.
  - split; [done|]. by intros [(al' & ? & ?) _].
  - destruct (1 <? Z.of_nat (length al)); simpl; split; try done; by intros [].
  - split; [done|]. by intros [].
Qed.

Lemma elem_of_tagged_rows (mt : MatrixTable) (r' : MtRow) :
  r' ∈ mt_rows (_filter_rows_and_add_tags densify mt)
  ↔ ∃ r, r' = tagged r ∧ r ∈ mt_rows (densify mt)
         ∧ multi_allelic r ∧ has_non_ref_call r.
Proof.
  rewrite filter_rows_and_add_tags_rows, list_elem_of_fmap.
  split; intros (r & -> & Hr); exists r; (split; [done|]).
  - apply list_elem_of_filter in Hr as [Hk Hr]. by apply keep_row_true in Hk.
  - destruct Hr as (Hr & Hm & Hn). apply list_elem_of_filter.
    split; [|done]. by apply keep_row_true.
Qed.

Lemma retained_iff (mt : MatrixTable) (r : MtRow) :
  r ∈ mt_rows (densify mt) →
  retained (_filter_rows_and_add_tags densify mt) r
  ↔ multi_allelic r ∧ has_non_ref_call r.
Proof.
  intros Hr. unfold retained. split.
  - intros (r' & Hin & Hkey & Hent).
    apply elem_of_tagged_rows in Hin as (r0 & -> & _ & Hm & Hn).
    injection Hkey as _ Hal. simpl in Hal, Hent.
    unfold multi_allelic, has_non_ref_call in *. by rewrite <- Hal, <- Hent.
  - intros [Hm Hn]. exists (tagged r). split; [|done].
    apply elem_of_tagged_rows. by exists r.
Qed.

(** C1.  A row of the densified input is retained by the row filter exactly
    when its allele list has more than one allele and some sample has a
    defined non-reference call.  In particular a row with a single allele is
    excluded, and so is a row whose calls are all undefined, whatever its
    alleles. *)
Theorem row_filter_retains_iff (mt : MatrixTable) (r : MtRow) :
  r ∈ mt_rows (densify mt) →
  (retained (_filter_rows_and_add_tags densify mt) r
   ↔ multi_allelic r ∧ has_non_ref_call r)
  ∧ (∀ a, alleles r = Some [a] →
          ¬ retained (_filter_rows_and_add_tags densify mt) r)
  ∧ ((∀ e, e ∈ entries r → entry_GT e = None) →
     ¬ retained (_filter_rows_and_add_tags densify mt) r).
Proof.
  intros Hr. pose proof (retained_iff mt r Hr) as Hiff.
  split; [done|]. split.
  - intros a Ha [(al & Hal & Hlen) _]%Hiff.
    rewrite Ha in Hal. injection Hal as <-. simpl in Hlen. lia.
  - intros Hna [_ (e & c & He & Hc & _)]%Hiff.
    specialize (Hna _ He). unfold entry_GT in Hna; simpl in Hna. congruence.
Qed.

(** ** The two tags *)

Lemma row_typed_columns (r : MtRow) :
  row_typed r = true → Z.of_nat (length (entries r)) <= int32_max.
Proof. intros [H _]%andb_prop. by apply Z.leb_le. Qed.

Lemma tagged_ANS (r : MtRow) :
  row_typed r = true →
  row_fields (tagged r) !! "ANS" = Some (VInt64 (2 * defined_calls r)).
Proof.
  intros Hcols%row_typed_columns. unfold int32_max in Hcols.
  unfold tagged, ANS_of, defined_calls; simpl.
  rewrite lookup_insert_eq, count_where_defined by lia.
  pose proof (length_filter (λ e, is_Some (entry_GT e)) (entries r)).
  rewrite wrap64_small by lia. do 2 f_equal. lia.
Qed.

Lemma tagged_site_dp (r : MtRow) :
  row_typed r = true →
  row_fields (tagged r) !! "site_dp" = Some (VInt64 (depth_total r)).
Proof.
  intros [Hcols%Z.leb_le Hdp]%andb_prop.
  unfold tagged, site_dp_of, depth_total; simpl.
  rewrite lookup_insert_ne, lookup_insert_eq by done.
  by destruct (sum_depths_bounds (entries r) Hcols Hdp) as [-> _].
Qed.

Lemma defined_calls_pos (r : MtRow) :
  has_non_ref_call r → 1 <= defined_calls r.
Proof.
  intros (e & c & He & Hc & _). unfold defined_calls.
  assert (Hin : Some e ∈ filter (λ e, is_Some (entry_GT e)) (entries r)).
  { apply list_elem_of_filter. split; [|done].
    unfold entry_GT; simpl. rewrite Hc. by eexists. }
  destruct (filter _ (entries r)); [by apply elem_of_nil in Hin|].
  rewrite length_cons. lia.
Qed.

(** C3.  On every retained row the [ANS] field is exactly twice the number
    of samples whose call is defined on that row. *)
Theorem ANS_twice_defined_calls (mt : MatrixTable) (r : MtRow) :
  r ∈ mt_rows (_filter_rows_and_add_tags densify mt) →
  row_typed r = true →
  row_fields r !! "ANS" = Some (VInt64 (2 * defined_calls r)).
Proof.
  intros (r0 & -> & _)%elem_of_tagged_rows Hty.
  by apply (tagged_ANS r0).
Qed.

(** C10.  On every row that survives the row filter [ANS] is at least 2, so
    it is never zero: a retained row has a defined non-reference call, and
    [ANS] is twice the number of defined calls. *)
Theorem ANS_at_least_two (mt : MatrixTable) (r : MtRow) :
  r ∈ mt_rows (_filter_rows_and_add_tags densify mt) →
  row_typed r = true →
  ∃ a, row_fields r !! "ANS" = Some (VInt64 a) ∧ 2 <= a ∧ a ≠ 0.
Proof.
  intros (r0 & -> & _ & _ & Hnr)%elem_of_tagged_rows Hty.
  exists (2 * defined_calls r0).
  split; [by apply (tagged_ANS r0)|].
  apply defined_calls_pos in Hnr. lia.
Qed.

(** ** The info table *)

Variable default_compute_info : MatrixTable → bool → Z → Table.

(** C7.  Overwriting [DP] touches nothing else: row by row, the table
    returned by [_create_info_ht] has the rows of the aggregator's table
    under the same keys and in the same partitions, with the same row
    fields and the same [info] entries except for [DP]. *)
Theorem DP_overwrite_frame (mt : MatrixTable) (n_partitions : Z) :
  Forall2 same_except_DP
    (ht_rows (default_compute_info mt true n_partitions))
    (ht_rows (_create_info_ht default_compute_info mt n_partitions))
  ∧ ht_partitions (_create_info_ht default_compute_info mt n_partitions)
    = ht_partitions (default_compute_info mt true n_partitions).
Proof.
  split; [|done].
  unfold _create_info_ht, hl.annotate_info; simpl.
  apply Forall2_fmap_r, Forall_Forall2_diag, Forall_forall.
  intros h _. repeat split. intros f Hf; simpl.
  by rewrite lookup_insert_ne.
Qed.

(** The aggregator returns one row per row of its input, under the same
    key and in the same order. *)
Hypothesis info_keys : ∀ mt site_annotations n_partitions,
  ht_key <$> ht_rows (default_compute_info mt site_annotations n_partitions)
  = mt_key <$> mt_rows mt.

Lemma tagged_rows_keys (mt : MatrixTable) :
  mt_key <$> mt_rows (_filter_rows_and_add_tags densify mt)
  = mt_key <$> filter (λ r, keep_row r = Some true) (mt_rows (densify mt)).
Proof.
  by rewrite filter_rows_and_add_tags_rows, <- list_fmap_compose.
Qed.

Lemma tagged_rows_NoDup (mt : MatrixTable) :
  NoDup (mt_key <$> mt_rows (densify mt)) →
  NoDup (mt_key <$> mt_rows (_filter_rows_and_add_tags densify mt)).
Proof.
  intros Hnd. rewrite tagged_rows_keys.
  eapply sublist_NoDup; [exact Hnd|].
  apply fmap_sublist, sublist_filter.
Qed.

Lemma index_unique_key (rows : list MtRow) (i : nat) (r : MtRow) :
  NoDup (mt_key <$> rows) →
  rows !! i = Some r →
  is_Some (alleles r) →
  hl.index rows (mt_key r) = Some r.
Proof.
  intros Hnd Hi [al Hal].
  assert (Hfind : list_find (λ r', mt_key r' = mt_key r) rows = Some (i, r)).
  { apply list_find_Some. split_and!; [done..|].
    intros j y Hj Hlt Hkey.
    assert (i = j); [|lia].
    eapply (NoDup_lookup _ _ _ (mt_key r) Hnd);
      rewrite list_lookup_fmap; [by rewrite Hi|by rewrite Hj, <- Hkey]. }
  unfold hl.index. change (mt_key r).2 with (alleles r).
  rewrite Hal. cbn [hl.is_defined]. by rewrite Hfind.
Qed.

Lemma create_info_ht_lookup (mt : MatrixTable) (n : Z) (i : nat) (r : MtRow) :
  NoDup (mt_key <$> mt_rows mt) →
  mt_rows mt !! i = Some r →
  is_Some (alleles r) →
  ∃ h, ht_rows (_create_info_ht default_compute_info mt n) !! i = Some h
       ∧ ht_key h = mt_key r
       ∧ info h !! "DP" = Some (hl.get_field "site_dp" (Some r)).
Proof.
  intros Hnd Hi Hal.
  assert (Hh : ∃ h0, ht_rows (default_compute_info mt true n) !! i = Some h0
                     ∧ ht_key h0 = mt_key r).
  { pose proof (info_keys mt true n) as Hk.
    apply (f_equal (λ l, l !! i)) in Hk.
    rewrite !list_lookup_fmap, Hi in Hk; simpl in Hk.
    destruct (ht_rows _ !! i) as [h0|]; [|done].
    exists h0. by simplify_eq/=. }
  destruct Hh as (h0 & Hh0 & Hkey).
  unfold _create_info_ht, hl.annotate_info; simpl.
  rewrite list_lookup_fmap, Hh0; simpl. eexists. split; [done|].
  split; [done|]. simpl.
  by rewrite lookup_insert_eq, Hkey, (index_unique_key _ i).
Qed.

(** For every retained row the [info.DP] of its row in the info table
    is the sum of the row's per-sample depths, a missing depth counting for
    zero.  The value is the row's own [site_dp], found through the row key,
    and it stands whatever [DP] the aggregator had computed. *)
Theorem info_DP_is_depth_total (mt : MatrixTable) (n_partitions : Z)
    (i : nat) (r : MtRow) :
  NoDup (mt_key <$> mt_rows (densify mt)) →
  mt_rows (_filter_rows_and_add_tags densify mt) !! i = Some r →
  row_typed r = true →
  ∃ h, ht_rows (_create_info_ht default_compute_info
                  (_filter_rows_and_add_tags densify mt) n_partitions) !! i
       = Some h
       ∧ ht_key h = mt_key r
       ∧ info h !! "DP" = row_fields r !! "site_dp"
       ∧ info h !! "DP" = Some (VInt64 (depth_total r)).
Proof.
  intros Hnd Hi Hty.
  assert (Hin : r ∈ mt_rows (_filter_rows_and_add_tags densify mt))
    by (apply list_elem_of_lookup; eauto).
  apply elem_of_tagged_rows in Hin as (r0 & -> & _ & (al & Hal & _) & _).
  pose proof (tagged_site_dp r0 Hty) as Hdp.
  destruct (create_info_ht_lookup _ n_partitions i (tagged r0)
              (tagged_rows_NoDup mt Hnd) Hi) as (h & Hh & Hkey & HDP).
  { simpl. rewrite Hal. by eexists. }
  assert (Hget : hl.get_field "site_dp" (Some (tagged r0))
                 = VInt64 (depth_total r0)).
  { unfold hl.get_field. cbn [mbind option_bind]. by rewrite Hdp. }
  exists h. split_and!; [done..| |].
  - by rewrite HDP, Hdp, Hget.
  - by rewrite HDP, Hget.
Qed.

(** ** Partition count *)

Variable adjust_vcf_incompatible_types : Table → Table.

(** The aggregator's rows do not depend on the requested partition count,
    and the rows the type adjustment returns depend only on the rows it is
    given. *)
Hypothesis info_rows_partitions : ∀ mt site_annotations n1 n2,
  ht_rows (default_compute_info mt site_annotations n1)
  = ht_rows (default_compute_info mt site_annotations n2).

Hypothesis adjust_rows : ∀ ht1 ht2,
  ht_rows ht1 = ht_rows ht2 →
  ht_rows (adjust_vcf_incompatible_types ht1)
  = ht_rows (adjust_vcf_incompatible_types ht2).

(** C5.  Two partition counts, 1 and 5000 say, give the same rows with the
    same field values: [n_partitions] reaches the aggregator only, and
    bears on the chunking of the table, not on its content. *)
Theorem n_partitions_content (mt : MatrixTable) (n1 n2 : Z) :
  ht_rows (mt_to_sites_only_ht densify default_compute_info
             adjust_vcf_incompatible_types mt n1)
  = ht_rows (mt_to_sites_only_ht densify default_compute_info
               adjust_vcf_incompatible_types mt n2).
Proof.
  unfold mt_to_sites_only_ht. apply adjust_rows.
  unfold _create_info_ht, hl.annotate_info; simpl.
  by rewrite (info_rows_partitions _ _ n1 n2).
Qed.

(** ** Export *)

(** What [hl.export_vcf] writes for a table, and the table [hl.import_vcf]
    reads back from a file. *)
Variable VcfFile : Type.
Variable export_vcf : Table → VcfFile.
Variable import_vcf : VcfFile → Table.

(** The type adjustment keeps the rows under their keys, and reading back a
    written file gives the keys of the table that was written. *)
Hypothesis adjust_keys : ∀ ht,
  ht_key <$> ht_rows (adjust_vcf_incompatible_types ht)
  = ht_key <$> ht_rows ht.

Hypothesis vcf_roundtrip_keys : ∀ ht,
  key_set (import_vcf (export_vcf ht)) = key_set ht.

Lemma sites_only_ht_keys (mt : MatrixTable) (n : Z) :
  ht_key <$> ht_rows (mt_to_sites_only_ht densify default_compute_info
                        adjust_vcf_incompatible_types mt n)
  = mt_key <$> mt_rows (_filter_rows_and_add_tags densify mt).
Proof.
  unfold mt_to_sites_only_ht. rewrite adjust_keys, <- (info_keys _ true n).
  unfold _create_info_ht, hl.annotate_info; simpl.
  by rewrite <- list_fmap_compose.
Qed.

(** A two-sample input whose one row has alleles [A] and [G], depths
    10 and 20 and a defined non-reference call for both samples: the row is
    retained and tagged with [ANS = 4] and a site depth of 30, its record in
    the info table has [DP = 30], and the sites-only table has that one
    site. *)
Theorem two_sample_scenario (mt : MatrixTable) (n_partitions : Z)
    (l : Locus) (c1 c2 : Call) :
  is_non_ref c1 = true →
  is_non_ref c2 = true →
  mt_rows (densify mt) = [scenario_row l c1 c2] →
  ∃ r h,
    mt_rows (_filter_rows_and_add_tags densify mt) = [r]
    ∧ mt_key r = (l, Some ["A"; "G"])
    ∧ row_fields r !! "site_dp" = Some (VInt64 30)
    ∧ row_fields r !! "ANS" = Some (VInt64 4)
    ∧ ht_rows (_create_info_ht default_compute_info
                 (_filter_rows_and_add_tags densify mt) n_partitions) = [h]
    ∧ ht_key h = (l, Some ["A"; "G"])
    ∧ info h !! "DP" = Some (VInt64 30)
    ∧ ht_key <$> ht_rows (mt_to_sites_only_ht densify default_compute_info
                            adjust_vcf_incompatible_types mt n_partitions)
      = [(l, Some ["A"; "G"])].
Proof.
  intros Hc1 Hc2 Hrows.
  assert (Hkeep : keep_row (scenario_row l c1 c2) = Some true).
  { unfold keep_row, hl.agg.any; simpl. by rewrite Hc1. }
  assert (Htag : mt_rows (_filter_rows_and_add_tags densify mt)
                 = [tagged (scenario_row l c1 c2)]).
  { rewrite filter_rows_and_add_tags_rows, Hrows, filter_cons.
    by rewrite decide_True. }
  pose proof (info_keys (_filter_rows_and_add_tags densify mt) true
                n_partitions) as Hk.
  pose proof (sites_only_ht_keys mt n_partitions) as Hfinal.
  rewrite Htag in Hk, Hfinal.
  unfold _create_info_ht, hl.annotate_info. cbn [ht_rows].
  rewrite Htag.
  destruct (ht_rows (default_compute_info _ true n_partitions))
    as [|h0 [|? ?]]; [done| |done].
  assert (Hkey : ht_key h0 = (l, Some ["A"; "G"])).
  { apply (f_equal head) in Hk. simpl in Hk.
    apply (inj Some) in Hk. by rewrite Hk. }
  eexists _, _. split_and!; try done.
  cbn [info]. rewrite lookup_insert_eq, Hkey. f_equal.
  unfold hl.index. cbn [snd hl.is_defined list_find].
  by rewrite decide_True.
Qed.

(** C6.  The file written by [export_sites_only_vcf], read back, has
    exactly the keys of the rows the row filter retains: the rows of the
    densified input with more than one allele and a defined non-reference
    call. *)
Theorem export_reparse_keys (mt : MatrixTable) (output_path : string)
    (n_partitions : Z) (w : World VcfFile) :
  ∃ w' f,
    export_sites_only_vcf densify default_compute_info
      adjust_vcf_incompatible_types VcfFile export_vcf
      mt output_path n_partitions w = (Returned output_path, w')
    ∧ w_vcfs w' !! output_path = Some f
    ∧ ∀ k, k ∈ key_set (import_vcf f)
           ↔ ∃ r, r ∈ mt_rows (densify mt) ∧ mt_key r = k
                  ∧ multi_allelic r ∧ has_non_ref_call r.
Proof.
  eexists _, _. split_and!.
  - unfold export_sites_only_vcf, logger_info, hl_export_vcf, emit.
    unfold mbind, IO_bind, mret, IO_ret. cbn. reflexivity.
  - cbn. apply lookup_insert_eq.
  - intros k. rewrite vcf_roundtrip_keys. unfold key_set.
    rewrite elem_of_list_to_set, sites_only_ht_keys, list_elem_of_fmap.
    split.
    + intros (r' & -> & (r & -> & Hr & Hm & Hn)%elem_of_tagged_rows).
      by exists r.
    + intros (r & Hr & <- & Hm & Hn). exists (tagged r). split; [done|].
      apply elem_of_tagged_rows. by exists r.
Qed.

(** ** The exported depth *)

Lemma wrap32_small z : int32_min <= z <= int32_max → wrap32 z = z.
Proof.
  unfold int32_min, int32_max, wrap32. intros Hz.
  rewrite Z.mod_small; lia.
Qed.

(** The type adjustment keeps the rows in place under their keys and turns
    an int64 info field into an int32, capped at the largest int32. *)
Hypothesis adjust_int64 : ∀ ht i h,
  ht_rows ht !! i = Some h →
  ∃ h', ht_rows (adjust_vcf_incompatible_types ht) !! i = Some h'
        ∧ ht_key h' = ht_key h
        ∧ ∀ (f : string) z,
            info h !! f = Some (VInt64 z) →
            info h' !! f = Some (VInt32 (wrap32 (Z.min int32_max z))).

(** C2 (as amended).  For every retained row, the [info.DP] of its row in
    the table [_create_info_ht] returns is the row's own [site_dp], found
    through the row key whatever [DP] the aggregator had computed, and that
    is the sum of the row's per-sample depths, a missing depth counting for
    zero.  In the sites-only table, the one handed to the writer and,
    when the export returns, written at the output path, [info.DP] is that
    sum as an int32 capped at the largest int32: it is the sum itself
    whenever the sum fits an int32. *)
Theorem exported_DP_is_capped_depth_total (mt : MatrixTable)
    (n_partitions : Z) (i : nat) (r : MtRow) :
  NoDup (mt_key <$> mt_rows (densify mt)) →
  mt_rows (_filter_rows_and_add_tags densify mt) !! i = Some r →
  row_typed r = true →
  (∃ h0, ht_rows (_create_info_ht default_compute_info
                    (_filter_rows_and_add_tags densify mt) n_partitions) !! i
         = Some h0
         ∧ ht_key h0 = mt_key r
         ∧ info h0 !! "DP" = row_fields r !! "site_dp"
         ∧ info h0 !! "DP" = Some (VInt64 (depth_total r)))
  ∧ (∃ h, ht_rows (mt_to_sites_only_ht densify default_compute_info
                     adjust_vcf_incompatible_types mt n_partitions) !! i
          = Some h
          ∧ ht_key h = mt_key r
          ∧ info h !! "DP"
            = Some (VInt32 (wrap32 (Z.min int32_max (depth_total r))))
          ∧ (int32_min <= depth_total r <= int32_max →
             info h !! "DP" = Some (VInt32 (depth_total r))))
  ∧ ∀ output_path w out w',
      export_sites_only_vcf densify default_compute_info
        adjust_vcf_incompatible_types VcfFile export_vcf
        mt output_path n_partitions w = (Returned out, w') →
      w_vcfs w' !! output_path
      = Some (export_vcf (mt_to_sites_only_ht densify default_compute_info
                            adjust_vcf_incompatible_types mt n_partitions)).
Proof.
  intros Hnd Hi Hty.
  destruct (info_DP_is_depth_total mt n_partitions i r Hnd Hi Hty)
    as (h0 & Hh0 & Hkey0 & Hdp & Hsum).
  split_and!.
  - by exists h0.
  - destruct (adjust_int64 _ i h0 Hh0) as (h & Hh & Hkey & Hint).
    exists h. unfold mt_to_sites_only_ht. split_and!.
    + done.
    + by rewrite Hkey.
    + by apply Hint.
    + intros Hfit. rewrite (Hint _ _ Hsum).
      rewrite Z.min_r by lia. by rewrite wrap32_small.
  - intros output_path w out w' Hrun.
    unfold export_sites_only_vcf, logger_info, hl_export_vcf, emit in Hrun.
    unfold mbind, IO_bind, mret, IO_ret in Hrun. cbn in Hrun.
    injection Hrun as _ <-. cbn. apply lookup_insert_eq.
Qed.

(** ** Command line *)

Lemma command_valid (a : Args) (w : World VcfFile) :
  ends_with ".mt" (arg_mt a) && file_exists w (arg_mt a) = true →
  command densify default_compute_info adjust_vcf_incompatible_types
          VcfFile export_vcf a w
  = main densify default_compute_info adjust_vcf_incompatible_types
         VcfFile export_vcf (arg_mt a) (arg_o a) (arg_local_tmp_dir a)
         (arg_overwrite a) (arg_hail_billing a) (arg_n_partitions a) w.
Proof.
  intros [Hext Hex]%andb_prop.
  unfold command, mbind, IO_bind, get_validation_callback.
  change ("." +:+ "mt") with ".mt". by rewrite Hext, Hex.
Qed.

(** C8.  The input path is checked, for the [.mt] extension and for
    existence, before anything else happens: when the check fails the
    command ends with a usage error and the world is as it was, no session
    started, no table read, nothing written. *)
Theorem invalid_input_aborts (a : Args) (w : World VcfFile) :
  ends_with ".mt" (arg_mt a) && file_exists w (arg_mt a) = false →
  ∃ msg,
    command densify default_compute_info adjust_vcf_incompatible_types
            VcfFile export_vcf a w
    = (Raised (BadParameter msg), w).
Proof.
  intros Hbad.
  unfold command, mbind, IO_bind, get_validation_callback, raise.
  change ("." +:+ "mt") with ".mt".
  destruct (ends_with ".mt" (arg_mt a)); simpl in *; [|by eexists].
  rewrite Hbad; simpl. by eexists.
Qed.

(** C9.  Two runs on the same input, output path and partition count that
    differ in [--overwrite/--reuse] and [--hail-billing] end with the same
    outcome in the same world: same actions, same file written. *)
Theorem unused_options_noninterference (a : Args)
    (overwrite1 overwrite2 : bool) (hail_billing1 hail_billing2 : option string)
    (w : World VcfFile) :
  command densify default_compute_info adjust_vcf_incompatible_types
          VcfFile export_vcf (with_options a overwrite1 hail_billing1) w
  = command densify default_compute_info adjust_vcf_incompatible_types
            VcfFile export_vcf (with_options a overwrite2 hail_billing2) w.
Proof. reflexivity. Qed.

(** * Further properties of the script *)

(** ** Tagging *)

(** X1.  Tagging changes nothing but the two tags: every row of the tagged
    table is a row of the densified input with the same locus, alleles and
    entries, and with every row field other than [site_dp] and [ANS] as it
    was. *)
Theorem tagging_frame (mt : MatrixTable) (r' : MtRow) :
  r' ∈ mt_rows (_filter_rows_and_add_tags densify mt) →
  ∃ r, r ∈ mt_rows (densify mt)
       ∧ locus r' = locus r ∧ alleles r' = alleles r
       ∧ entries r' = entries r
       ∧ ∀ f : string, f ≠ "site_dp" → f ≠ "ANS" →
                       row_fields r' !! f = row_fields r !! f.
Proof.
  intros (r & -> & Hr & _)%elem_of_tagged_rows.
  exists r. split_and!; try done.
  intros f Hdp Hans. unfold tagged; simpl.
  by rewrite !lookup_insert_ne.
Qed.

(** X2.  The tagged table keeps the columns of the densified table and its
    rows in their order: the keys of its rows are a sublist of the keys of
    the densified rows, so unique keys stay unique. *)
Theorem retained_keys_sublist (mt : MatrixTable) :
  col_keys (_filter_rows_and_add_tags densify mt) = col_keys (densify mt)
  ∧ mt_key <$> mt_rows (_filter_rows_and_add_tags densify mt)
      `sublist_of` mt_key <$> mt_rows (densify mt)
  ∧ (NoDup (mt_key <$> mt_rows (densify mt)) →
     NoDup (mt_key <$> mt_rows (_filter_rows_and_add_tags densify mt))).
Proof.
  assert (Hsub : mt_key <$> mt_rows (_filter_rows_and_add_tags densify mt)
                   `sublist_of` mt_key <$> mt_rows (densify mt)).
  { rewrite tagged_rows_keys. apply fmap_sublist, sublist_filter. }
  split_and!; [done|done|].
  intros Hnd. by eapply sublist_NoDup.
Qed.

Lemma length_filter_all {A} (P : A → Prop) `{!∀ x, Decision (P x)}
    (l : list A) :
  length (filter P l) = length l ↔ Forall P l.
Proof.
  induction l as [|x l IH]; [by split|].
  pose proof (length_filter P l) as Hle.
  rewrite filter_cons, Forall_cons. destruct (decide (P x)) as [HP|HP].
  - rewrite !length_cons. rewrite <- IH. split; [|intros [_ ->]; done].
    intros [= ?]. done.
  - rewrite length_cons. split; [lia|]. by intros [? _].
Qed.

(** X3.  On a retained row [ANS] is even and at most twice the number of
    samples, and it reaches that bound exactly when every sample has a
    defined call. *)
Theorem ANS_bounded_by_samples (mt : MatrixTable) (r : MtRow) :
  r ∈ mt_rows (_filter_rows_and_add_tags densify mt) →
  row_typed r = true →
  ∃ a, row_fields r !! "ANS" = Some (VInt64 a)
       ∧ Z.even a = true
       ∧ a <= 2 * n_samples r
       ∧ (a = 2 * n_samples r
          ↔ ∀ e, e ∈ entries r → is_Some (entry_GT e)).
Proof.
  intros (r0 & -> & _)%elem_of_tagged_rows Hty.
  exists (2 * defined_calls r0). split; [by apply (tagged_ANS r0)|].
  pose proof (length_filter (λ e, is_Some (entry_GT e)) (entries r0)) as Hle.
  unfold defined_calls, n_samples.
  change (entries (tagged r0)) with (entries r0).
  split; [by rewrite Z.even_mul|]. split; [lia|].
  rewrite <- Forall_forall,
    <- (length_filter_all (λ e, is_Some (entry_GT e))).
  split; [intros ?; lia|intros ->; lia].
Qed.

(** X4.  When every depth of a retained row is missing its site depth is
    zero, not missing, and it replaces whatever [site_dp] field the row
    carried before. *)
Theorem site_dp_zero_without_depths (mt : MatrixTable) (r : MtRow) :
  r ∈ mt_rows (_filter_rows_and_add_tags densify mt) →
  (∀ e, e ∈ entries r → entry_DP e = None) →
  row_fields r !! "site_dp" = Some (VInt64 0).
Proof.
  intros (r0 & -> & _)%elem_of_tagged_rows Hnone.
  unfold tagged, site_dp_of; simpl in *.
  rewrite lookup_insert_ne, lookup_insert_eq by done.
  do 2 f_equal. induction (entries r0) as [|e es IH]; [done|].
  rewrite fmap_cons, (Hnone e) by apply list_elem_of_here.
  cbn [hl.agg.sum]. apply IH. intros e' He'. apply Hnone. by right.
Qed.

(** ** The info table *)

Lemma tagged_rows_site_dp (mt : MatrixTable) (r : MtRow) :
  r ∈ mt_rows (_filter_rows_and_add_tags densify mt) →
  is_Some (alleles r)
  ∧ ∃ z, row_fields r !! "site_dp" = Some (VInt64 z).
Proof.
  intros (r0 & -> & _ & (al & Hal & _) & _)%elem_of_tagged_rows.
  split; [by exists al|].
  eexists. unfold tagged, site_dp_of; simpl.
  by rewrite lookup_insert_ne, lookup_insert_eq.
Qed.

(** X5.  In the info table made from the tagged table, a row gets a missing
    [DP] exactly when its key is the key of no retained row; this holds
    whatever [DP] the aggregator had given it. *)
Theorem info_DP_missing_without_match (mt : MatrixTable) (n_partitions : Z)
    (i : nat) (h : HtRow) :
  ht_rows (default_compute_info (_filter_rows_and_add_tags densify mt)
             true n_partitions) !! i = Some h →
  ∃ h', ht_rows (_create_info_ht default_compute_info
                   (_filter_rows_and_add_tags densify mt) n_partitions) !! i
        = Some h'
        ∧ ht_key h' = ht_key h
        ∧ (info h' !! "DP" = Some VNA
           ↔ ∀ r, r ∈ mt_rows (_filter_rows_and_add_tags densify mt)
                  → mt_key r ≠ ht_key h).
Proof.
  intros Hi. unfold _create_info_ht, hl.annotate_info. cbn [ht_rows].
  rewrite list_lookup_fmap, Hi. cbn [fmap option_fmap option_map].
  eexists. split; [done|]. split; [done|]. cbn [info].
  rewrite lookup_insert_eq.
  set (rows := mt_rows (_filter_rows_and_add_tags densify mt)).
  split.
  - intros Hna r Hr Hkey.
    destruct (tagged_rows_site_dp mt r Hr) as [[al Hal] _].
    destruct (list_find_elem_of (λ r', mt_key r' = ht_key h) rows r Hr Hkey)
      as [[j r1] Hfind].
    pose proof Hfind as (Hj & _ & _)%list_find_Some.
    destruct (tagged_rows_site_dp mt r1) as [_ [z Hz]];
      [apply list_elem_of_lookup; eauto|].
    assert (Hidx : hl.index rows (ht_key h) = Some r1).
    { unfold hl.index. rewrite <- Hkey. change (mt_key r).2 with (alleles r).
      rewrite Hal. cbn [hl.is_defined]. rewrite Hkey. by rewrite Hfind. }
    rewrite Hidx in Hna. unfold hl.get_field in Hna.
    cbn [mbind option_bind] in Hna. rewrite Hz in Hna. done.
  - intros Hnone. f_equal.
    assert (Hidx : hl.index rows (ht_key h) = None).
    { unfold hl.index. destruct (hl.is_defined _); [|done].
      destruct (list_find _ _) as [[j r]|] eqn:Hfind; [|done].
      apply list_find_Some in Hfind as (Hj & Hkey & _).
      destruct (Hnone r); [|done]. apply list_elem_of_lookup. eauto. }
    by rewrite Hidx.
Qed.

Lemma HtRow_eq (h1 h2 : HtRow) :
  ht_key h1 = ht_key h2 → info h1 = info h2 → ht_fields h1 = ht_fields h2 →
  h1 = h2.
Proof.
  destruct h1, h2; unfold ht_key; simpl. intros [= -> ->] -> ->. done.
Qed.

(** X6.  The [DP] the aggregator computes never reaches the result: two
    aggregators whose tables differ in [info.DP] only give the same info
    table. *)
Theorem aggregator_DP_ignored
    (other_compute_info : MatrixTable → bool → Z → Table)
    (mt : MatrixTable) (n_partitions : Z) :
  Forall2 same_except_DP
    (ht_rows (default_compute_info mt true n_partitions))
    (ht_rows (other_compute_info mt true n_partitions)) →
  ht_partitions (default_compute_info mt true n_partitions)
  = ht_partitions (other_compute_info mt true n_partitions) →
  _create_info_ht default_compute_info mt n_partitions
  = _create_info_ht other_compute_info mt n_partitions.
Proof.
  intros Hrows Hparts. unfold _create_info_ht, hl.annotate_info.
  cbn zeta. rewrite Hparts. f_equal.
  induction Hrows as [|h h' l l' (Hkey & Hfields & Hinfo) _ IH]; [done|].
  rewrite !fmap_cons, IH. f_equal.
  apply HtRow_eq; simpl; [done| |done].
  apply map_eq. intros f. destruct (decide (f = "DP")) as [->|Hf].
  - by rewrite !lookup_insert_eq, Hkey.
  - by rewrite !lookup_insert_ne, Hinfo.
Qed.

(** ** Samples *)

Lemma keep_row_has_entry (r : MtRow) :
  keep_row r = Some true → entries r ≠ [].
Proof.
  intros [_ (e & c & He & _)]%keep_row_true Hnil.
  rewrite Hnil in He. by apply elem_of_nil in He.
Qed.

(** X12.  Without samples there is no site: when no row of the densified
    table has an entry, the sites-only table is empty. *)
Theorem no_samples_no_sites (mt : MatrixTable) (n_partitions : Z) :
  (∀ r, r ∈ mt_rows (densify mt) → entries r = []) →
  mt_rows (_filter_rows_and_add_tags densify mt) = []
  ∧ ht_rows (mt_to_sites_only_ht densify default_compute_info
               adjust_vcf_incompatible_types mt n_partitions) = [].
Proof.
  intros Hnone.
  assert (Hrows : mt_rows (_filter_rows_and_add_tags densify mt) = []).
  { rewrite filter_rows_and_add_tags_rows.
    induction (mt_rows (densify mt)) as [|r l IH]; [done|].
    rewrite filter_cons, decide_False.
    - apply IH. intros r' Hr'. apply Hnone. by right.
    - intros Hk%keep_row_has_entry. apply Hk, Hnone. by left. }
  split; [done|].
  pose proof (sites_only_ht_keys mt n_partitions) as Hkeys.
  rewrite Hrows in Hkeys. by apply fmap_nil_inv in Hkeys.
Qed.

Lemma wrap64_add_r (a b : Z) : wrap64 (a + wrap64 b) = wrap64 (a + b).
Proof.
  unfold wrap64. f_equal.
  replace (a + ((b + 2 ^ 63) mod 2 ^ 64 - 2 ^ 63) + 2 ^ 63)
    with (a + (b + 2 ^ 63) mod 2 ^ 64) by lia.
  rewrite Zplus_mod_idemp_r. f_equal. lia.
Qed.

Lemma agg_sum_wrap (xs : list (option Z)) :
  hl.agg.sum xs = wrap64 (foldr Z.add 0 (default 0 <$> xs)).
Proof.
  induction xs as [|[x|] xs IH]; [done| |].
  - rewrite fmap_cons. cbn [hl.agg.sum foldr]. unfold default at 1.
    cbn [from_option]. unfold id. by rewrite IH, wrap64_add_r.
  - rewrite fmap_cons. cbn [hl.agg.sum foldr]. by rewrite IH.
Qed.

Lemma agg_count_where_wrap (xs : list (option bool)) :
  hl.agg.count_where xs
  = wrap64 (Z.of_nat (length (filter (λ x, x = Some true) xs))).
Proof.
  induction xs as [|x xs IH]; [done|].
  rewrite filter_cons.
  destruct (decide (x = Some true)) as [->|Hx].
  - cbn [hl.agg.count_where]. rewrite IH, wrap64_add_r, length_cons.
    f_equal. lia.
  - destruct x as [[|]|]; [done|by cbn [hl.agg.count_where]..].
Qed.

Lemma foldr_add_Permutation (l1 l2 : list Z) :
  l1 ≡ₚ l2 → foldr Z.add 0 l1 = foldr Z.add 0 l2.
Proof.
  induction 1 as [|x l1 l2 _ IH|x y l|l1 l2 l3 _ IH1 _ IH2];
    simpl; [done|by rewrite IH|lia|congruence].
Qed.

Lemma agg_any_Permutation (xs ys : list (option bool)) :
  xs ≡ₚ ys → hl.agg.any xs = hl.agg.any ys.
Proof.
  unfold hl.agg.any.
  induction 1 as [|x l1 l2 _ IH|x y l|l1 l2 l3 _ IH1 _ IH2];
    simpl; [done|by rewrite IH| |congruence].
  by destruct (bool_decide _), (bool_decide _).
Qed.

Lemma tags_sample_order (r1 r2 : MtRow) :
  alleles r1 = alleles r2 →
  entries r1 ≡ₚ entries r2 →
  keep_row r1 = keep_row r2
  ∧ site_dp_of r1 = site_dp_of r2
  ∧ ANS_of r1 = ANS_of r2.
Proof.
  intros Hal Hperm. split_and!.
  - unfold keep_row. rewrite Hal. do 2 f_equal.
    apply agg_any_Permutation. by rewrite Hperm.
  - unfold site_dp_of. rewrite !agg_sum_wrap. do 2 f_equal.
    apply foldr_add_Permutation. by rewrite Hperm.
  - unfold ANS_of. rewrite !agg_count_where_wrap. do 5 f_equal.
    apply Permutation_length. by rewrite Hperm.
Qed.

(** X13.  The order of the samples does not matter: two tables whose
    densified rows agree up to the order of the samples have the same rows
    retained, with the same [site_dp] and [ANS]. *)
Theorem sample_order_irrelevant (mt1 mt2 : MatrixTable) :
  Forall2 same_up_to_sample_order
    (mt_rows (densify mt1)) (mt_rows (densify mt2)) →
  Forall2 same_up_to_sample_order
    (mt_rows (_filter_rows_and_add_tags densify mt1))
    (mt_rows (_filter_rows_and_add_tags densify mt2)).
Proof.
  rewrite !filter_rows_and_add_tags_rows.
  induction 1 as [|r1 r2 l1 l2 (Hkey & Hfields & Hperm) _ IH]; [constructor|].
  assert (Hal : alleles r1 = alleles r2) by (by injection Hkey).
  destruct (tags_sample_order r1 r2 Hal Hperm) as (Hkeep & Hdp & Hans).
  rewrite !filter_cons, Hkeep.
  destruct (decide (keep_row r2 = Some true)); [|done].
  rewrite !fmap_cons. constructor; [|done].
  unfold same_up_to_sample_order, tagged, mt_key in *; simpl.
  by rewrite Hdp, Hans, Hfields.
Qed.

(** X14.  The sites-only table has one row for each retained row, and its
    keys are unique when the keys of the input are. *)
Theorem sites_only_ht_unique_keys (mt : MatrixTable) (n_partitions : Z) :
  NoDup (mt_key <$> mt_rows (densify mt)) →
  NoDup (ht_key <$> ht_rows (mt_to_sites_only_ht densify default_compute_info
                               adjust_vcf_incompatible_types mt
                               n_partitions))
  ∧ length (ht_rows (mt_to_sites_only_ht densify default_compute_info
                       adjust_vcf_incompatible_types mt n_partitions))
    = length (mt_rows (_filter_rows_and_add_tags densify mt)).
Proof.
  intros Hnd. pose proof (sites_only_ht_keys mt n_partitions) as Hkeys.
  split.
  - rewrite Hkeys. by apply tagged_rows_NoDup.
  - apply (f_equal length) in Hkeys. by rewrite !length_fmap in Hkeys.
Qed.

(** ** Runs of the command *)

Ltac run_io :=
  unfold main, export_sites_only_vcf, read_matrix_table, hl_export_vcf,
    init_hail, logger_info, emit, raise, mbind, IO_bind, mret, IO_ret;
  cbn.

Lemma main_run (mt_path output_path : string) (local_tmp_dir : option string)
    (overwrite : bool) (hail_billing : option string) (n : Z)
    (w : World VcfFile) (mt : MatrixTable) :
  w_tables w !! mt_path = Some mt →
  main densify default_compute_info adjust_vcf_incompatible_types
       VcfFile export_vcf mt_path output_path local_tmp_dir overwrite
       hail_billing n w
  = (Returned (),
     {| w_tables := w_tables w;
        w_vcfs := <[output_path :=
                      export_vcf (mt_to_sites_only_ht densify
                                    default_compute_info
                                    adjust_vcf_incompatible_types mt n)]>
                    (w_vcfs w);
        w_trace := w_trace w
                   ++ success_trace
                        {| arg_mt := mt_path; arg_o := output_path;
                           arg_local_tmp_dir := local_tmp_dir;
                           arg_overwrite := overwrite;
                           arg_hail_billing := hail_billing;
                           arg_n_partitions := n |} |}).
Proof.
  intros Hmt. run_io. rewrite Hmt. cbn.
  by rewrite <- !app_assoc.
Qed.

Lemma main_run_missing (mt_path output_path : string)
    (local_tmp_dir : option string) (overwrite : bool)
    (hail_billing : option string) (n : Z) (w : World VcfFile) :
  w_tables w !! mt_path = None →
  main densify default_compute_info adjust_vcf_incompatible_types
       VcfFile export_vcf mt_path output_path local_tmp_dir overwrite
       hail_billing n w
  = (Raised (HailError mt_path),
     {| w_tables := w_tables w; w_vcfs := w_vcfs w;
        w_trace := w_trace w
                   ++ [EvInitHail "variant_qc" local_tmp_dir;
                       EvLog ("Loading matrix table from " +:+ dquote
                              +:+ mt_path +:+ dquote);
                       EvReadMatrixTable mt_path] |}).
Proof.
  intros Hmt. run_io. rewrite Hmt. cbn.
  by rewrite <- !app_assoc.
Qed.

Lemma validation_callback_run (value : string) (w : World VcfFile) :
  get_validation_callback VcfFile "mt" true value w
  = if ends_with ".mt" value && file_exists w value
    then (Returned value, w)
    else (Raised (BadParameter
                    (if ends_with ".mt" value
                     then value +:+ " doesn't exist"
                     else value +:+ " is expected to have an extension ."
                          +:+ "mt")), w).
Proof.
  unfold get_validation_callback, raise.
  change ("." +:+ "mt") with ".mt".
  by destruct (ends_with ".mt" value), (file_exists w value).
Qed.

(** X8.  A run of the command that returns normally had an input path
    that passed validation; the table read is the one stored at that path,
    the file at the output path is what the writer makes of the sites-only
    table of that table at the given partition count, whatever
    [--overwrite/--reuse] says and whether or not a file was there, and the
    script's actions came in the order session start, read, export. *)
Theorem returned_command_run (a : Args) (w w' : World VcfFile) :
  command densify default_compute_info adjust_vcf_incompatible_types
          VcfFile export_vcf a w = (Returned (), w') →
  ends_with ".mt" (arg_mt a) && file_exists w (arg_mt a) = true
  ∧ ∃ mt,
      w_tables w !! arg_mt a = Some mt
      ∧ w_vcfs w' !! arg_o a
        = Some (export_vcf (mt_to_sites_only_ht densify default_compute_info
                              adjust_vcf_incompatible_types mt
                              (arg_n_partitions a)))
      ∧ w_trace w' = w_trace w ++ success_trace a.
Proof.
  unfold command, mbind, IO_bind. rewrite validation_callback_run.
  destruct (ends_with ".mt" (arg_mt a) && file_exists w (arg_mt a));
    [|done].
  destruct (w_tables w !! arg_mt a) as [mt|] eqn:Hmt.
  - rewrite (main_run _ _ _ _ _ _ _ mt Hmt). intros [= <-].
    split; [done|]. exists mt. split; [done|]. cbn.
    split; [apply lookup_insert_eq|]. by destruct a.
  - by rewrite (main_run_missing _ _ _ _ _ _ _ Hmt).
Qed.

(** X10.  [main] on a path where no table is stored, as when it is called
    past the command-line check: the read fails once the session has been
    started, the error ends the run, and nothing is exported. *)
Theorem main_missing_table (mt_path output_path : string)
    (local_tmp_dir : option string) (overwrite : bool)
    (hail_billing : option string) (n_partitions : Z) (w : World VcfFile) :
  w_tables w !! mt_path = None →
  ∃ e w',
    main densify default_compute_info adjust_vcf_incompatible_types
         VcfFile export_vcf mt_path output_path local_tmp_dir overwrite
         hail_billing n_partitions w = (Raised e, w')
    ∧ w_vcfs w' = w_vcfs w
    ∧ w_tables w' = w_tables w
    ∧ EvInitHail "variant_qc" local_tmp_dir ∈ w_trace w'
    ∧ ∀ p, EvExportVcf p ∈ w_trace w' → EvExportVcf p ∈ w_trace w.
Proof.
  intros Hmt. eexists _, _. split; [by apply main_run_missing|].
  cbn. split_and!; [done|done| |].
  - apply elem_of_app. right. by left.
  - intros p [Hp|Hp]%elem_of_app; [done|].
    repeat (apply elem_of_cons in Hp as [Hp|Hp]; [discriminate|]).
    by apply elem_of_nil in Hp.
Qed.

End Properties.

(** * The reference instances meet the assumptions *)

Lemma model_info_keys (mt : MatrixTable) (site_annotations : bool) (n : Z) :
  ht_key <$> ht_rows (Model.default_compute_info mt site_annotations n)
  = mt_key <$> mt_rows mt.
Proof.
  unfold Model.default_compute_info; simpl.
  by rewrite <- list_fmap_compose.
Qed.

Lemma model_info_rows_partitions (mt : MatrixTable) (site_annotations : bool)
    (n1 n2 : Z) :
  ht_rows (Model.default_compute_info mt site_annotations n1)
  = ht_rows (Model.default_compute_info mt site_annotations n2).
Proof. reflexivity. Qed.

Lemma model_adjust_rows (ht1 ht2 : Table) :
  ht_rows ht1 = ht_rows ht2 →
  ht_rows (Model.adjust_vcf_incompatible_types ht1)
  = ht_rows (Model.adjust_vcf_incompatible_types ht2).
Proof.
  intros Heq. unfold Model.adjust_vcf_incompatible_types, hl.annotate_info.
  simpl. by rewrite Heq.
Qed.

Lemma model_adjust_keys (ht : Table) :
  ht_key <$> ht_rows (Model.adjust_vcf_incompatible_types ht)
  = ht_key <$> ht_rows ht.
Proof.
  unfold Model.adjust_vcf_incompatible_types, hl.annotate_info; simpl.
  by rewrite <- list_fmap_compose.
Qed.

Lemma model_adjust_int64 (ht : Table) (i : nat) (h : HtRow) :
  ht_rows ht !! i = Some h →
  ∃ h', ht_rows (Model.adjust_vcf_incompatible_types ht) !! i = Some h'
        ∧ ht_key h' = ht_key h
        ∧ ∀ (f : string) z,
            info h !! f = Some (VInt64 z) →
            info h' !! f = Some (VInt32 (wrap32 (Z.min int32_max z))).
Proof.
  intros Hi. unfold Model.adjust_vcf_incompatible_types, hl.annotate_info.
  cbn [ht_rows]. rewrite list_lookup_fmap, Hi.
  eexists. split; [done|]. split; [done|].
  intros f z Hf. cbn [info]. by rewrite lookup_fmap, Hf.
Qed.

Lemma model_vcf_roundtrip_keys (ht : Table) :
  key_set (Model.import_vcf (Model.export_vcf ht)) = key_set ht.
Proof.
  unfold key_set, Model.import_vcf, Model.export_vcf; simpl.
  by rewrite <- !list_fmap_compose.
Qed.

Lemma cohort_keys_NoDup :
  NoDup (mt_key <$> mt_rows (Model.densify Model.cohort)).
Proof. apply (bool_decide_unpack _). by vm_compute. Qed.

(** The command on the sample cohort: the session starts, the table is
    read, the file is written, with the two retained sites.  The stand-in
    type adjustment turns the int64 depth into an int32. *)
Example model_run :
  ∃ w, Model.run Model.args0 Model.world0 = (Returned (), w)
       ∧ w_trace w
         = [EvInitHail "variant_qc" None;
            EvLog ("Loading matrix table from " +:+ dquote
                   +:+ "gs://bucket/cohort.mt" +:+ dquote);
            EvReadMatrixTable "gs://bucket/cohort.mt";
            EvLog "Converting matrix table to sites-only matrix table";
            EvLog ("Exporting sites-only VCF to " +:+ squote
                   +:+ "gs://bucket/sites.vcf.bgz" +:+ squote
                   +:+ " to run in the VQSR pipeline");
            EvExportVcf "gs://bucket/sites.vcf.bgz";
            EvLog "Successfully exported sites-only VCF"]
       ∧ (λ rec, (rec.1, rec.2 !! "DP"))
           <$> default [] (w_vcfs w !! "gs://bucket/sites.vcf.bgz")
         = [((Model.at_chr1 2, Some ["GCT"; "G"]), Some (VInt32 17));
            ((Model.at_chr1 9, Some ["A"; "G"]), Some (VInt32 30))].
Proof. eexists. split_and!; by vm_compute. Qed.

(** * Instances of the properties on the sample cohort *)

Lemma row_filter_retains_iff_witness :
  Model.deletion_dense ∈ mt_rows (Model.densify Model.cohort)
  ∧ (retained (_filter_rows_and_add_tags Model.densify Model.cohort)
       Model.deletion_dense
     ↔ multi_allelic Model.deletion_dense
       ∧ has_non_ref_call Model.deletion_dense)
  ∧ (∀ a, alleles Model.deletion_dense = Some [a] →
          ¬ retained (_filter_rows_and_add_tags Model.densify Model.cohort)
              Model.deletion_dense)
  ∧ ((∀ e, e ∈ entries Model.deletion_dense → entry_GT e = None) →
     ¬ retained (_filter_rows_and_add_tags Model.densify Model.cohort)
         Model.deletion_dense).
Proof.
  assert (Hin : Model.deletion_dense ∈ mt_rows (Model.densify Model.cohort))
    by (apply (list_elem_of_lookup_2 _ 1%nat); reflexivity).
  split; [exact Hin|].
  exact (row_filter_retains_iff Model.densify Model.cohort
           Model.deletion_dense Hin).
Defined.

Lemma ANS_twice_defined_calls_witness :
  tagged Model.deletion_dense
    ∈ mt_rows (_filter_rows_and_add_tags Model.densify Model.cohort)
  ∧ row_typed (tagged Model.deletion_dense) = true
  ∧ row_fields (tagged Model.deletion_dense) !! "ANS"
    = Some (VInt64 (2 * defined_calls (tagged Model.deletion_dense))).
Proof.
  assert (Hin : tagged Model.deletion_dense
                  ∈ mt_rows (_filter_rows_and_add_tags Model.densify
                               Model.cohort))
    by (apply (list_elem_of_lookup_2 _ 0%nat); vm_compute; reflexivity).
  split; [exact Hin|]. split; [reflexivity|].
  exact (ANS_twice_defined_calls Model.densify Model.cohort _ Hin eq_refl).
Defined.

Lemma ANS_at_least_two_witness :
  tagged Model.snp_row
    ∈ mt_rows (_filter_rows_and_add_tags Model.densify Model.cohort)
  ∧ row_typed (tagged Model.snp_row) = true
  ∧ ∃ a, row_fields (tagged Model.snp_row) !! "ANS" = Some (VInt64 a)
         ∧ 2 <= a ∧ a ≠ 0.
Proof.
  assert (Hin : tagged Model.snp_row
                  ∈ mt_rows (_filter_rows_and_add_tags Model.densify
                               Model.cohort))
    by (apply (list_elem_of_lookup_2 _ 1%nat); vm_compute; reflexivity).
  split; [exact Hin|]. split; [reflexivity|].
  exact (ANS_at_least_two Model.densify Model.cohort _ Hin eq_refl).
Defined.

Lemma exported_DP_is_capped_depth_total_witness :
  NoDup (mt_key <$> mt_rows (Model.densify Model.cohort))
  ∧ mt_rows (_filter_rows_and_add_tags Model.densify Model.cohort) !! 0%nat
    = Some (tagged Model.deletion_dense)
  ∧ row_typed (tagged Model.deletion_dense) = true
  ∧ (∃ h0, ht_rows (_create_info_ht Model.default_compute_info
                      (_filter_rows_and_add_tags Model.densify Model.cohort)
                      5000) !! 0%nat = Some h0
           ∧ ht_key h0 = mt_key (tagged Model.deletion_dense)
           ∧ info h0 !! "DP"
             = row_fields (tagged Model.deletion_dense) !! "site_dp"
           ∧ info h0 !! "DP"
             = Some (VInt64 (depth_total (tagged Model.deletion_dense))))
  ∧ (∃ h, ht_rows (mt_to_sites_only_ht Model.densify
                     Model.default_compute_info
                     Model.adjust_vcf_incompatible_types Model.cohort 5000)
          !! 0%nat = Some h
          ∧ ht_key h = mt_key (tagged Model.deletion_dense)
          ∧ info h !! "DP"
            = Some (VInt32
                      (wrap32
                         (Z.min int32_max
                            (depth_total (tagged Model.deletion_dense)))))
          ∧ (int32_min <= depth_total (tagged Model.deletion_dense)
             <= int32_max →
             info h !! "DP"
             = Some (VInt32 (depth_total (tagged Model.deletion_dense)))))
  ∧ ∀ output_path w out w',
      export_sites_only_vcf Model.densify Model.default_compute_info
        Model.adjust_vcf_incompatible_types Model.VcfFile Model.export_vcf
        Model.cohort output_path 5000 w = (Returned out, w') →
      w_vcfs w' !! output_path
      = Some (Model.export_vcf
                (mt_to_sites_only_ht Model.densify
                   Model.default_compute_info
                   Model.adjust_vcf_incompatible_types Model.cohort 5000)).
Proof.
  assert (Hi : mt_rows (_filter_rows_and_add_tags Model.densify Model.cohort)
               !! 0%nat = Some (tagged Model.deletion_dense))
    by (vm_compute; reflexivity).
  split; [exact cohort_keys_NoDup|]. split; [exact Hi|].
  split; [reflexivity|].
  exact (exported_DP_is_capped_depth_total Model.densify
           Model.default_compute_info model_info_keys
           Model.adjust_vcf_incompatible_types Model.VcfFile
           Model.export_vcf model_adjust_int64 Model.cohort 5000 0%nat _
           cohort_keys_NoDup Hi eq_refl).
Defined.

(** C2 as stated fails where the sum of the depths exceeds the largest
    int32.  Two samples of depth 2147483647 at a retained site: the depths
    sum to 4294967294, the info table has that sum, and the sites-only
    table and the file written from it have 2147483647. *)
Lemma exported_DP_differs_from_depth_total :
  mt_rows (_filter_rows_and_add_tags Model.densify Sample.deep) !! 0%nat
  = Some (tagged Sample.deep_row)
  ∧ row_typed (tagged Sample.deep_row) = true
  ∧ depth_total (tagged Sample.deep_row) = 4294967294
  ∧ (∃ h, ht_rows (mt_to_sites_only_ht Model.densify
                     Model.default_compute_info
                     Model.adjust_vcf_incompatible_types Sample.deep 5000)
          !! 0%nat = Some h
          ∧ ht_key h = mt_key (tagged Sample.deep_row)
          ∧ info h !! "DP" = Some (VInt32 2147483647)
          ∧ info h !! "DP" ≫= int_of
            ≠ Some (depth_total (tagged Sample.deep_row)))
  ∧ (λ rec, (rec.1, rec.2 !! "DP"))
      <$> Model.export_vcf
            (mt_to_sites_only_ht Model.densify Model.default_compute_info
               Model.adjust_vcf_incompatible_types Sample.deep 5000)
    = [((Model.at_chr1 9, Some ["A"; "G"]), Some (VInt32 2147483647))].
Proof.
  split; [by vm_compute|]. split; [reflexivity|]. split; [reflexivity|].
  split; [|by vm_compute].
  eexists. split; [by vm_compute|]. split; [reflexivity|].
  split; [by vm_compute|]. by vm_compute.
Qed.

(** C4.  The two-sample scenario run through the script with the stand-in
    aggregator and type adjustment: the row is retained and tagged with
    [ANS = 4] and a site depth of 30, and the one record of the sites-only
    table, as of the file written from it, has [DP = 30] and no [ANS],
    neither in [info] nor as a row field.  The script copies [site_dp] into
    [info] and never [ANS]. *)
Theorem two_sample_output_lacks_ANS :
  mt_rows (_filter_rows_and_add_tags Model.densify Model.two_sample)
  = [tagged Model.snp_row]
  ∧ row_fields (tagged Model.snp_row) !! "site_dp" = Some (VInt64 30)
  ∧ row_fields (tagged Model.snp_row) !! "ANS" = Some (VInt64 4)
  ∧ (∃ h, ht_rows (mt_to_sites_only_ht Model.densify
                     Model.default_compute_info
                     Model.adjust_vcf_incompatible_types Model.two_sample
                     5000) = [h]
          ∧ ht_key h = (Model.at_chr1 9, Some ["A"; "G"])
          ∧ info h !! "DP" = Some (VInt32 30)
          ∧ info h !! "ANS" = None
          ∧ ht_fields h !! "ANS" = None)
  ∧ (λ rec, (rec.1, rec.2 !! "DP", rec.2 !! "ANS"))
      <$> Model.export_vcf
            (mt_to_sites_only_ht Model.densify Model.default_compute_info
               Model.adjust_vcf_incompatible_types Model.two_sample 5000)
    = [((Model.at_chr1 9, Some ["A"; "G"]), Some (VInt32 30), None)].
Proof.
  split; [by vm_compute|]. split; [reflexivity|]. split; [reflexivity|].
  split; [|by vm_compute].
  eexists. split; [by vm_compute|]. by repeat split.
Qed.

Lemma n_partitions_content_witness :
  ht_rows (mt_to_sites_only_ht Model.densify Model.default_compute_info
             Model.adjust_vcf_incompatible_types Model.cohort 1)
  = ht_rows (mt_to_sites_only_ht Model.densify Model.default_compute_info
               Model.adjust_vcf_incompatible_types Model.cohort 5000).
Proof.
  exact (n_partitions_content Model.densify Model.default_compute_info
           Model.adjust_vcf_incompatible_types
           model_info_rows_partitions model_adjust_rows Model.cohort 1 5000).
Defined.

Lemma export_reparse_keys_witness :
  ∃ w' f,
    export_sites_only_vcf Model.densify Model.default_compute_info
      Model.adjust_vcf_incompatible_types Model.VcfFile Model.export_vcf
      Model.cohort "gs://bucket/sites.vcf.bgz" 5000 Model.world0
    = (Returned "gs://bucket/sites.vcf.bgz", w')
    ∧ w_vcfs w' !! "gs://bucket/sites.vcf.bgz" = Some f
    ∧ ∀ k, k ∈ key_set (Model.import_vcf f)
           ↔ ∃ r, r ∈ mt_rows (Model.densify Model.cohort) ∧ mt_key r = k
                  ∧ multi_allelic r ∧ has_non_ref_call r.
Proof.
  exact (export_reparse_keys Model.densify Model.default_compute_info
           model_info_keys Model.adjust_vcf_incompatible_types
           Model.VcfFile Model.export_vcf Model.import_vcf
           model_adjust_keys model_vcf_roundtrip_keys
           Model.cohort "gs://bucket/sites.vcf.bgz" 5000 Model.world0).
Defined.

Lemma invalid_input_aborts_witness :
  ends_with ".mt" (arg_mt Model.args_absent)
  && file_exists Model.world0 (arg_mt Model.args_absent) = false
  ∧ ∃ msg, Model.run Model.args_absent Model.world0
           = (Raised (BadParameter msg), Model.world0).
Proof.
  split; [reflexivity|].
  exact (invalid_input_aborts Model.densify Model.default_compute_info
           Model.adjust_vcf_incompatible_types Model.VcfFile
           Model.export_vcf Model.args_absent Model.world0 eq_refl).
Defined.

(** * Instances of the further properties *)

Lemma other_compute_info_same_except_DP (mt : MatrixTable) (n : Z) :
  Forall2 same_except_DP
    (ht_rows (Model.default_compute_info mt true n))
    (ht_rows (Sample.other_compute_info mt true n)).
Proof.
  unfold Sample.other_compute_info, hl.annotate_info; simpl.
  apply Forall2_fmap_r, Forall_Forall2_diag, Forall_forall.
  intros h _. repeat split. intros f Hf; simpl.
  by rewrite lookup_insert_ne.
Qed.

Lemma tagging_frame_witness :
  tagged Model.deletion_dense
    ∈ mt_rows (_filter_rows_and_add_tags Model.densify Model.cohort)
  ∧ ∃ r, r ∈ mt_rows (Model.densify Model.cohort)
         ∧ locus (tagged Model.deletion_dense) = locus r
         ∧ alleles (tagged Model.deletion_dense) = alleles r
         ∧ entries (tagged Model.deletion_dense) = entries r
         ∧ ∀ f : string, f ≠ "site_dp" → f ≠ "ANS" →
             row_fields (tagged Model.deletion_dense) !! f
             = row_fields r !! f.
Proof.
  assert (Hin : tagged Model.deletion_dense
                  ∈ mt_rows (_filter_rows_and_add_tags Model.densify
                               Model.cohort))
    by (apply (list_elem_of_lookup_2 _ 0%nat); vm_compute; reflexivity).
  split; [exact Hin|].
  exact (tagging_frame Model.densify Model.cohort _ Hin).
Defined.

Lemma ANS_bounded_by_samples_witness :
  tagged Model.snp_row
    ∈ mt_rows (_filter_rows_and_add_tags Model.densify Model.cohort)
  ∧ row_typed (tagged Model.snp_row) = true
  ∧ ∃ a, row_fields (tagged Model.snp_row) !! "ANS" = Some (VInt64 a)
         ∧ Z.even a = true
         ∧ a <= 2 * n_samples (tagged Model.snp_row)
         ∧ (a = 2 * n_samples (tagged Model.snp_row)
            ↔ ∀ e, e ∈ entries (tagged Model.snp_row)
                   → is_Some (entry_GT e)).
Proof.
  assert (Hin : tagged Model.snp_row
                  ∈ mt_rows (_filter_rows_and_add_tags Model.densify
                               Model.cohort))
    by (apply (list_elem_of_lookup_2 _ 1%nat); vm_compute; reflexivity).
  split; [exact Hin|]. split; [reflexivity|].
  exact (ANS_bounded_by_samples Model.densify Model.cohort _ Hin eq_refl).
Defined.

Lemma site_dp_zero_without_depths_witness :
  tagged Sample.depthless_row
    ∈ mt_rows (_filter_rows_and_add_tags Model.densify
                 Sample.all_depths_missing)
  ∧ (∀ e, e ∈ entries (tagged Sample.depthless_row) → entry_DP e = None)
  ∧ row_fields (tagged Sample.depthless_row) !! "site_dp"
    = Some (VInt64 0).
Proof.
  assert (Hin : tagged Sample.depthless_row
                  ∈ mt_rows (_filter_rows_and_add_tags Model.densify
                               Sample.all_depths_missing))
    by (apply (list_elem_of_lookup_2 _ 0%nat); vm_compute; reflexivity).
  assert (Hnone : ∀ e, e ∈ entries (tagged Sample.depthless_row)
                       → entry_DP e = None).
  { intros e He. simpl in He.
    repeat (apply elem_of_cons in He as [->|He]; [reflexivity|]).
    by apply elem_of_nil in He. }
  split; [exact Hin|]. split; [exact Hnone|].
  exact (site_dp_zero_without_depths Model.densify
           Sample.all_depths_missing _ Hin Hnone).
Defined.

Lemma info_DP_missing_without_match_witness :
  ht_rows (Sample.stray_compute_info
             (_filter_rows_and_add_tags Model.densify Model.cohort)
             true 5000) !! 2%nat = Some Sample.stray_row
  ∧ ∃ h', ht_rows (_create_info_ht Sample.stray_compute_info
                     (_filter_rows_and_add_tags Model.densify Model.cohort)
                     5000) !! 2%nat = Some h'
          ∧ ht_key h' = ht_key Sample.stray_row
          ∧ (info h' !! "DP" = Some VNA
             ↔ ∀ r, r ∈ mt_rows (_filter_rows_and_add_tags Model.densify
                                   Model.cohort)
                    → mt_key r ≠ ht_key Sample.stray_row).
Proof.
  assert (Hi : ht_rows (Sample.stray_compute_info
                          (_filter_rows_and_add_tags Model.densify
                             Model.cohort) true 5000) !! 2%nat
               = Some Sample.stray_row)
    by (vm_compute; reflexivity).
  split; [exact Hi|].
  exact (info_DP_missing_without_match Model.densify
           Sample.stray_compute_info Model.cohort 5000 2%nat _ Hi).
Defined.

Lemma aggregator_DP_ignored_witness :
  _create_info_ht Model.default_compute_info
    (_filter_rows_and_add_tags Model.densify Model.cohort) 5000
  = _create_info_ht Sample.other_compute_info
      (_filter_rows_and_add_tags Model.densify Model.cohort) 5000.
Proof.
  exact (aggregator_DP_ignored Model.default_compute_info
           Sample.other_compute_info
           (_filter_rows_and_add_tags Model.densify Model.cohort) 5000
           (other_compute_info_same_except_DP _ _) eq_refl).
Defined.

Lemma no_samples_no_sites_witness :
  (∀ r, r ∈ mt_rows (Model.densify Sample.no_samples) → entries r = [])
  ∧ mt_rows (_filter_rows_and_add_tags Model.densify Sample.no_samples) = []
  ∧ ht_rows (mt_to_sites_only_ht Model.densify Model.default_compute_info
               Model.adjust_vcf_incompatible_types Sample.no_samples 5000)
    = [].
Proof.
  assert (Hnone : ∀ r, r ∈ mt_rows (Model.densify Sample.no_samples)
                       → entries r = []).
  { intros r Hr. simpl in Hr.
    repeat (apply elem_of_cons in Hr as [->|Hr]; [reflexivity|]).
    by apply elem_of_nil in Hr. }
  split; [exact Hnone|].
  exact (no_samples_no_sites Model.densify Model.default_compute_info
           model_info_keys Model.adjust_vcf_incompatible_types
           model_adjust_keys Sample.no_samples 5000 Hnone).
Defined.

Lemma sample_order_irrelevant_witness :
  Forall2 same_up_to_sample_order
    (mt_rows (Model.densify Model.two_sample))
    (mt_rows (Model.densify Sample.two_sample_swapped))
  ∧ Forall2 same_up_to_sample_order
      (mt_rows (_filter_rows_and_add_tags Model.densify Model.two_sample))
      (mt_rows (_filter_rows_and_add_tags Model.densify
                  Sample.two_sample_swapped)).
Proof.
  assert (Hin : Forall2 same_up_to_sample_order
                  (mt_rows (Model.densify Model.two_sample))
                  (mt_rows (Model.densify Sample.two_sample_swapped))).
  { simpl. constructor; [|constructor].
    split; [reflexivity|]. split; [reflexivity|]. simpl. apply perm_swap. }
  split; [exact Hin|].
  exact (sample_order_irrelevant Model.densify Model.two_sample
           Sample.two_sample_swapped Hin).
Defined.

Lemma sites_only_ht_unique_keys_witness :
  NoDup (mt_key <$> mt_rows (Model.densify Model.cohort))
  ∧ NoDup (ht_key <$> ht_rows (mt_to_sites_only_ht Model.densify
                                 Model.default_compute_info
                                 Model.adjust_vcf_incompatible_types
                                 Model.cohort 5000))
  ∧ length (ht_rows (mt_to_sites_only_ht Model.densify
                       Model.default_compute_info
                       Model.adjust_vcf_incompatible_types
                       Model.cohort 5000))
    = length (mt_rows (_filter_rows_and_add_tags Model.densify
                         Model.cohort)).
Proof.
  split; [exact cohort_keys_NoDup|].
  exact (sites_only_ht_unique_keys Model.densify Model.default_compute_info
           model_info_keys Model.adjust_vcf_incompatible_types
           model_adjust_keys Model.cohort 5000 cohort_keys_NoDup).
Defined.

Lemma returned_command_run_witness :
  Model.run Model.args0 Sample.world_with_output
  = (Returned (), (Model.run Model.args0 Sample.world_with_output).2)
  ∧ ends_with ".mt" (arg_mt Model.args0)
    && file_exists Sample.world_with_output (arg_mt Model.args0) = true
  ∧ ∃ mt,
      w_tables Sample.world_with_output !! arg_mt Model.args0 = Some mt
      ∧ w_vcfs (Model.run Model.args0 Sample.world_with_output).2
        !! arg_o Model.args0
        = Some (Model.export_vcf
                  (mt_to_sites_only_ht Model.densify
                     Model.default_compute_info
                     Model.adjust_vcf_incompatible_types mt
                     (arg_n_partitions Model.args0)))
      ∧ w_trace (Model.run Model.args0 Sample.world_with_output).2
        = w_trace Sample.world_with_output ++ success_trace Model.args0.
Proof.
  assert (Hrun : Model.run Model.args0 Sample.world_with_output
                 = (Returned (),
                    (Model.run Model.args0 Sample.world_with_output).2))
    by (vm_compute; reflexivity).
  split; [exact Hrun|].
  exact (returned_command_run Model.densify Model.default_compute_info
           Model.adjust_vcf_incompatible_types Model.VcfFile
           Model.export_vcf Model.args0 Sample.world_with_output _ Hrun).
Defined.

Lemma main_missing_table_witness :
  w_tables Model.world0 !! "gs://bucket/absent.mt" = None
  ∧ ∃ e w',
      main Model.densify Model.default_compute_info
        Model.adjust_vcf_incompatible_types Model.VcfFile Model.export_vcf
        "gs://bucket/absent.mt" "gs://bucket/sites.vcf.bgz" None false None
        5000 Model.world0 = (Raised e, w')
      ∧ w_vcfs w' = w_vcfs Model.world0
      ∧ w_tables w' = w_tables Model.world0
      ∧ EvInitHail "variant_qc" None ∈ w_trace w'
      ∧ ∀ p, EvExportVcf p ∈ w_trace w'
             → EvExportVcf p ∈ w_trace Model.world0.
Proof.
  split; [reflexivity|].
  exact (main_missing_table Model.densify Model.default_compute_info
           Model.adjust_vcf_incompatible_types Model.VcfFile
           Model.export_vcf "gs://bucket/absent.mt"
           "gs://bucket/sites.vcf.bgz" None false None 5000 Model.world0
           eq_refl).
Defined.
